(** * buildkite-demo-agent: the OSV vulnerability scanner CLI

    A shallow embedding of [buildkite_demo_agent/__init__.py] and
    [buildkite_demo_agent/osv_agent.py].

    Conventions.
    - A Python [str] is a [string]; each [ascii] stands for one code point
      below 256.
    - Python objects that flow through dynamically typed positions (JSON
      loaded from a file, dictionary values, arguments of [scan_package])
      are values of [pyval]; a [dict] is an association list in insertion
      order.
    - Effects are threaded through the monad [M]: the state is the history
      of observable events, a computation returns, raises an [Exception]
      or leaves through [sys.exit].
    - What lies outside the repository (the environment variable, the LLM
      agent behind the MCP transport, the file system) is an [Env]. *)

From Stdlib Require Import String Ascii List ZArith Bool Lia Arith.
From Stdlib Require Import DecimalString.
Import ListNotations.

Local Open Scope list_scope.
Local Open Scope string_scope.

(** ** Python strings *)

Module PyStr.

(** [s.endswith(suffix)] *)
Fixpoint endswith (s suffix : string) : bool :=
  (s =? suffix) ||
  match s with
  | EmptyString => false
  | String _ s' => endswith s' suffix
  end.

(** Removal of the trailing characters that satisfy [p]. *)
Fixpoint rstrip_with (p : ascii -> bool) (s : string) : string :=
  match s with
  | EmptyString => EmptyString
  | String a s' =>
      match rstrip_with p s' with
      | EmptyString => if p a then EmptyString else String a EmptyString
      | r => String a r
      end
  end.

(** Removal of the leading characters that satisfy [p]. *)
Fixpoint lstrip_with (p : ascii -> bool) (s : string) : string :=
  match s with
  | EmptyString => EmptyString
  | String a s' => if p a then lstrip_with p s' else s
  end.

(** [s.rstrip(chars)] for a one-character [chars]. *)
Definition rstrip_char (c : ascii) (s : string) : string :=
  rstrip_with (Ascii.eqb c) s.

(** The characters [str.strip()] removes: the code points below 256 for
    which [str.isspace] holds (TAB, LF, VT, FF, CR, FS, GS, RS, US, space,
    NEL and the no-break space). *)
Definition isspace (a : ascii) : bool :=
  let n := nat_of_ascii a in
  (Nat.leb 9 n && Nat.leb n 13) || (Nat.leb 28 n && Nat.leb n 32)
  || Nat.eqb n 133 || Nat.eqb n 160.

(** [s.strip()] *)
Definition strip (s : string) : string :=
  rstrip_with isspace (lstrip_with isspace s).

(** [s.split(sep)] for a one-character [sep]: never the empty list. *)
Fixpoint split (sep : ascii) (s : string) : list string :=
  match s with
  | EmptyString => [EmptyString]
  | String a s' =>
      if Ascii.eqb a sep then EmptyString :: split sep s'
      else match split sep s' with
           | [] => [String a EmptyString]
           | h :: t => String a h :: t
           end
  end.

(** [sub in s] *)
Fixpoint contains (s sub : string) : bool :=
  prefix sub s ||
  match s with
  | EmptyString => false
  | String _ s' => contains s' sub
  end.

(** Truth value of a string. *)
Definition truthy (s : string) : bool :=
  match s with EmptyString => false | _ => true end.

(** [s.count(c)] for a one-character [c]. *)
Fixpoint count (c : ascii) (s : string) : nat :=
  match s with
  | EmptyString => 0
  | String a s' => (if Ascii.eqb a c then 1 else 0) + count c s'
  end.

(** Every character of [s] satisfies [p]. *)
Fixpoint all_chars (p : ascii -> bool) (s : string) : bool :=
  match s with
  | EmptyString => true
  | String a s' => p a && all_chars p s'
  end.

End PyStr.

(** ** Python values *)

#[warnings="-register-all"]
Inductive pyval : Type :=
| PNone
| PBool (b : bool)
| PInt (z : Z)
| PStr (s : string)
| PList (l : list pyval)
| PDict (d : list (string * pyval)).

Definition pydict : Type := list (string * pyval).

(** [d.get(key)] as an option: the first binding of [key]. *)
Fixpoint dict_get (key : string) (d : pydict) : option pyval :=
  match d with
  | [] => None
  | (k, v) :: d' => if k =? key then Some v else dict_get key d'
  end.

(** [key in d] for a dictionary. *)
Definition dict_has (key : string) (d : pydict) : bool :=
  match dict_get key d with Some _ => true | None => false end.

(** [bool(v)] *)
Definition py_truthy (v : pyval) : bool :=
  match v with
  | PNone => false
  | PBool b => b
  | PInt z => negb (z =? 0)%Z
  | PStr s => PyStr.truthy s
  | PList l => match l with [] => false | _ => true end
  | PDict d => match d with [] => false | _ => true end
  end.

(** Truth value of an [Optional[str]]. *)
Definition opt_truthy (o : option string) : bool :=
  match o with Some s => PyStr.truthy s | None => false end.

Definition of_opt (o : option string) : pyval :=
  match o with Some s => PStr s | None => PNone end.

(** ** Exceptions, results and the effect monad *)

Inductive exn : Type :=
| ValueError (msg : string)
| KeyError (key : string)
| TypeError
| ValidationError
| UserError
| UnboundLocalError (name : string)
| ExternalError (msg : string).

Inductive Res (A : Type) : Type :=
| Ret (a : A)
| Raise (e : exn)
| SysExit (code : Z).

Arguments Ret {A} a.
Arguments Raise {A} e.
Arguments SysExit {A} code.

(** ** The records of [osv_agent.py] *)

Record VulnerabilityInfo : Type := {
  package_name : string;
  ecosystem : string;
  version : string;
  vulnerabilities_found : Z;
  critical_vulnerabilities : list string;
  high_vulnerabilities : list string;
  medium_vulnerabilities : list string;
  recommendations : list string;
  summary : string
}.

Record OSVConfig : Type := {
  osv_server_url : string;
  anthropic_api_key : option string
}.

Inductive transport : Type :=
| MCPServerSSE (url : string)
| MCPServerStreamableHTTP (url : string).

Record OSVAgent : Type := {
  config : OSVConfig;
  osv_server : transport
}.

(** [VulnerabilityInfo.model_dump()] *)
Definition model_dump (r : VulnerabilityInfo) : pydict :=
  [ ("package_name", PStr (package_name r));
    ("ecosystem", PStr (ecosystem r));
    ("version", PStr (version r));
    ("vulnerabilities_found", PInt (vulnerabilities_found r));
    ("critical_vulnerabilities", PList (map PStr (critical_vulnerabilities r)));
    ("high_vulnerabilities", PList (map PStr (high_vulnerabilities r)));
    ("medium_vulnerabilities", PList (map PStr (medium_vulnerabilities r)));
    ("recommendations", PList (map PStr (recommendations r)));
    ("summary", PStr (summary r)) ].

(** ** Observable events and the environment *)

Inductive format : Type := Json | Text.

(** The object [main] binds to [output]: a dictionary, or a list of
    dictionaries ([isinstance(output, list)]). *)
Inductive output : Type :=
| OutDict (d : pydict)
| OutList (l : list pydict).

(** What is rendered: [json.dumps(output, indent=2)], or the text report
    that [format_single_result] and [format_batch_results] build for a
    severity threshold. *)
Inductive rendering : Type :=
| JsonDumps (o : output)
| TextReport (o : output) (threshold : string).

Inductive event : Type :=
| Stderr (line : string)
| StderrExn (prefix : string) (e : exn)
| StderrAboveThreshold (threshold : string)
| Stdout (line : string)
| StdoutRendered (r : rendering)
| FileWritten (path : string) (r : rendering)
| JsonLoad (path : string)
| AgentConstructed (server : transport)
| AgentRun (server : transport) (query : string).

(** A history: the events so far, oldest first. *)
Definition World : Type := list event.

(** What [async with self.agent.run_mcp_servers(): await self.agent.run(query)]
    comes to: a structured output, or an [Exception] whose [str] is [msg]. *)
Inductive agent_outcome : Type :=
| AgentOutput (out : VulnerabilityInfo)
| AgentRaises (msg : string).

Inductive load_outcome : Type :=
| Loaded (v : pyval)
| LoadRaises (msg : string).

Record Env : Type := {
  (** [os.getenv('ANTHROPIC_API_KEY')], after [load_dotenv()] *)
  getenv_ANTHROPIC_API_KEY : option string;
  (** the agent's answer to a query, given all that happened before *)
  agent_reply : World -> string -> agent_outcome;
  (** [json.load(open(path))] *)
  json_load : string -> load_outcome;
  (** [open(path, 'w')] and [f.write]: [Some msg] when they raise *)
  file_write : string -> option string;
  (** [str(v)] of a list or a dictionary *)
  container_str : pyval -> string
}.

Definition M (A : Type) : Type := World -> Res A * World.

Definition ret {A} (a : A) : M A := fun w => (Ret a, w).

Definition bind {A B} (m : M A) (k : A -> M B) : M B :=
  fun w =>
    match m w with
    | (Ret a, w') => k a w'
    | (Raise e, w') => (Raise e, w')
    | (SysExit c, w') => (SysExit c, w')
    end.

Definition lift {A} (r : Res A) : M A := fun w => (r, w).

Definition raise {A} (e : exn) : M A := lift (Raise e).

(** [sys.exit(code)]: [SystemExit] is no [Exception]. *)
Definition sys_exit {A} (code : Z) : M A := lift (SysExit code).

Definition emit (ev : event) : M unit := fun w => (Ret tt, (w ++ [ev])%list).

(** [try: m  except Exception as e: handler e] *)
Definition try_except {A} (m : M A) (handler : exn -> M A) : M A :=
  fun w =>
    match m w with
    | (Raise e, w') => handler e w'
    | r => r
    end.

Declare Scope py_scope.
Delimit Scope py_scope with py.
Notation "x <- m ;; k" := (bind m (fun x => k))
  (at level 61, m at next level, right associativity) : py_scope.
Notation "m ;;; k" := (bind m (fun _ => k))
  (at level 61, right associativity) : py_scope.
Local Open Scope py_scope.

(** The exit status of a process that ends with [r]. An uncaught
    exception ends the interpreter with status 1. *)
Definition exit_code {A} (r : Res A) : Z :=
  match r with
  | Ret _ => 0%Z
  | Raise _ => 1%Z
  | SysExit c => c
  end.

(** ** Dynamic operations on Python values *)

(** The text an f-string puts for [{v}]. *)
Definition py_str (env : Env) (v : pyval) : string :=
  match v with
  | PStr s => s
  | PNone => "None"
  | PBool true => "True"
  | PBool false => "False"
  | PInt z => NilZero.string_of_int (Z.to_int z)
  | _ => container_str env v
  end.

(** [for x in v]: the elements a loop over [v] visits. *)
Definition py_iter (v : pyval) : Res (list pyval) :=
  match v with
  | PList l => Ret l
  | PDict d => Ret (map (fun kv => PStr (fst kv)) d)
  | PStr s => Ret (map (fun a => PStr (String a EmptyString)) (list_ascii_of_string s))
  | _ => Raise TypeError
  end.

(** [key in v] for a string [key]. *)
Definition py_in (key : string) (v : pyval) : Res bool :=
  match v with
  | PDict d => Ret (dict_has key d)
  | PStr s => Ret (PyStr.contains s key)
  | PList l =>
      Ret (existsb (fun x => match x with PStr s => s =? key | _ => false end) l)
  | _ => Raise TypeError
  end.

(** [v[key]] for a string [key]. *)
Definition py_getitem (v : pyval) (key : string) : Res pyval :=
  match v with
  | PDict d =>
      match dict_get key d with
      | Some x => Ret x
      | None => Raise (KeyError key)
      end
  | _ => Raise TypeError
  end.

(** ** osv_agent.py *)

(** [a or b] on two [Optional[str]]. *)
Definition py_or (a b : option string) : option string :=
  if opt_truthy a then a else b.

(** [VulnerabilityInfo(...)]: the model validates its fields; the three
    [str] fields that [scan_package] fills from its arguments accept
    strings only. *)
Definition VulnerabilityInfo_new (package_name ecosystem version : pyval)
    (vulnerabilities_found : Z)
    (critical_vulnerabilities high_vulnerabilities medium_vulnerabilities
       recommendations : list string)
    (summary : string) : Res VulnerabilityInfo :=
  match package_name, ecosystem, version with
  | PStr n, PStr e, PStr v =>
      Ret {| package_name := n; ecosystem := e; version := v;
             vulnerabilities_found := vulnerabilities_found;
             critical_vulnerabilities := critical_vulnerabilities;
             high_vulnerabilities := high_vulnerabilities;
             medium_vulnerabilities := medium_vulnerabilities;
             recommendations := recommendations;
             summary := summary |}
  | _, _, _ => Raise ValidationError
  end.

(** [OSVAgent.__init__]. The key the guard accepts is not handed on:
    [AnthropicModel(...)] is built from the model name alone, so its
    provider looks for [ANTHROPIC_API_KEY] in the environment and raises
    its [UserError] when that is unset or empty. The constructors of the
    MCP server and of [Agent] are taken to succeed. *)
Definition OSVAgent_init (env : Env) (config : OSVConfig) : M OSVAgent :=
  let api_key := py_or (anthropic_api_key config) (getenv_ANTHROPIC_API_KEY env) in
  if negb (opt_truthy api_key) then
    raise (ValueError
      "ANTHROPIC_API_KEY must be provided via config or environment variable")
  else
    let server :=
      if PyStr.endswith (osv_server_url config) "/sse" then
        MCPServerSSE (osv_server_url config)
      else if PyStr.endswith (osv_server_url config) "/mcp"
              || PyStr.endswith (osv_server_url config) "/mcp/" then
        let url := PyStr.rstrip_char "/" (osv_server_url config) in
        MCPServerStreamableHTTP (url ++ "/")
      else
        MCPServerSSE (osv_server_url config ++ "/sse") in
    if negb (opt_truthy (getenv_ANTHROPIC_API_KEY env)) then
      raise UserError
    else
      emit (AgentConstructed server) ;;;
      ret {| config := config; osv_server := server |}.

(** One run of the agent on [query] inside [run_mcp_servers()]. *)
Definition agent_run (env : Env) (self : OSVAgent) (query : string)
  : M agent_outcome :=
  fun w => (Ret (agent_reply env w query), (w ++ [AgentRun (osv_server self) query])%list).

(** [OSVAgent.scan_package] *)
Definition scan_package (env : Env) (self : OSVAgent)
    (package_name ecosystem version : pyval) : M VulnerabilityInfo :=
  let query := "Scan " ++ py_str env package_name ++ " version "
               ++ py_str env version ++ " from " ++ py_str env ecosystem
               ++ " ecosystem for vulnerabilities" in
  r <- agent_run env self query ;;
  match r with
  | AgentOutput out => ret out
  | AgentRaises e =>
      lift (VulnerabilityInfo_new package_name ecosystem version
              0 [] [] []
              ["Error scanning package: " ++ e]
              ("Failed to scan " ++ py_str env package_name ++ "@"
               ++ py_str env version ++ ": " ++ e))
  end.

(** The loop of [scan_packages_batch]: [results] is the list built so
    far, [pkgs] what is left to visit. *)
Fixpoint scan_packages_loop (env : Env) (self : OSVAgent)
    (pkgs : list pyval) (results : list VulnerabilityInfo)
  : M (list VulnerabilityInfo) :=
  match pkgs with
  | [] => ret results
  | pkg :: rest =>
      n <- lift (py_getitem pkg "package_name") ;;
      e <- lift (py_getitem pkg "ecosystem") ;;
      v <- lift (py_getitem pkg "version") ;;
      result <- scan_package env self n e v ;;
      scan_packages_loop env self rest (results ++ [result])%list
  end.

(** [OSVAgent.scan_packages_batch] *)
Definition scan_packages_batch (env : Env) (self : OSVAgent)
    (packages : pyval) : M (list VulnerabilityInfo) :=
  pkgs <- lift (py_iter packages) ;;
  scan_packages_loop env self pkgs [].

(** [OSVAgent.get_vulnerability_details] *)
Definition get_vulnerability_details (env : Env) (self : OSVAgent)
    (vulnerability_id : string) : M string :=
  let query := "Get detailed information about vulnerability "
               ++ vulnerability_id in
  r <- agent_run env self query ;;
  match r with
  | AgentOutput out => ret (summary out)
  | AgentRaises e => ret ("Error retrieving vulnerability details: " ++ e)
  end.

(** ** __init__.py: loading package lists *)

Definition required_keys : list string :=
  ["package_name"; "ecosystem"; "version"].

(** [all(key in pkg for key in keys)]: stops at the first key that is
    missing; a [pkg] that supports no [in] raises. *)
Fixpoint all_keys_in (keys : list string) (pkg : pyval) : Res bool :=
  match keys with
  | [] => Ret true
  | key :: keys' =>
      match py_in key pkg with
      | Ret true => all_keys_in keys' pkg
      | r => r
      end
  end.

(** The validation loop of [parse_packages_from_file]. *)
Fixpoint validate_packages (pkgs : list pyval) : Res unit :=
  match pkgs with
  | [] => Ret tt
  | pkg :: rest =>
      match all_keys_in required_keys pkg with
      | Ret true => validate_packages rest
      | Ret false =>
          Raise (ValueError
            "Package missing required keys: ['package_name', 'ecosystem', 'version']")
      | Raise e => Raise e
      | SysExit c => SysExit c
      end
  end.

(** [parse_packages_from_file] *)
Definition parse_packages_from_file (env : Env) (file_path : string)
  : M pyval :=
  try_except
    (emit (JsonLoad file_path) ;;;
     match json_load env file_path with
     | LoadRaises msg => raise (ExternalError msg)
     | Loaded packages =>
         pkgs <- lift (py_iter packages) ;;
         lift (validate_packages pkgs) ;;;
         ret packages
     end)
    (fun e =>
       emit (StderrExn "Error parsing packages file: " e) ;;;
       sys_exit 1%Z).

(** The dictionary [parse_packages_from_args] appends for [parts]. *)
Definition package_entry (parts : list string) : pyval :=
  PDict [ ("package_name", PStr (nth 0 parts ""));
          ("ecosystem", PStr (nth 1 parts ""));
          ("version", PStr (nth 2 parts "")) ].

(** The loop of [parse_packages_from_args]: [packages] is the list built
    so far. *)
Fixpoint parse_entries (entries : list string) (packages : list pyval)
  : Res (list pyval) :=
  match entries with
  | [] => Ret packages
  | pkg_str :: rest =>
      let parts := PyStr.split ":" (PyStr.strip pkg_str) in
      if negb (Nat.eqb (length parts) 3) then
        Raise (ValueError
          ("Invalid package format: " ++ pkg_str
           ++ ". Expected format: package:ecosystem:version"))
      else
        parse_entries rest (packages ++ [package_entry parts])%list
  end.

(** [parse_packages_from_args] *)
Definition parse_packages_from_args (packages_str : string) : M pyval :=
  try_except
    (packages <- lift (parse_entries (PyStr.split "," packages_str) []) ;;
     ret (PList packages))
    (fun e =>
       emit (StderrExn "Error parsing packages: " e) ;;;
       sys_exit 1%Z).

(** ** __init__.py: the severity threshold *)

Definition severity_levels : list string :=
  ["low"; "medium"; "high"; "critical"].

(** [l.index(x)]: [None] stands for the [ValueError] of a missing [x]. *)
Fixpoint list_index (x : string) (l : list string) : option nat :=
  match l with
  | [] => None
  | y :: l' =>
      if y =? x then Some 0
      else match list_index x l' with
           | Some i => Some (S i)
           | None => None
           end
  end.

(** The loop of [check_single_result_threshold] over [range(i, i + n)]. *)
Fixpoint check_levels_from (result : pydict) (severity_levels : list string)
    (i n : nat) : bool :=
  match n with
  | O => false
  | S n' =>
      let severity := nth i severity_levels "" in
      let key := severity ++ "_vulnerabilities" in
      if dict_has key result
         && match dict_get key result with
            | Some v => py_truthy v
            | None => false
            end
      then true
      else check_levels_from result severity_levels (S i) n'
  end.

(** [check_single_result_threshold]: the loop runs over
    [range(threshold_index, len(severity_levels))]. *)
Definition check_single_result_threshold (result : pydict)
    (threshold_index : nat) (severity_levels : list string) : bool :=
  check_levels_from result severity_levels threshold_index
    (length severity_levels - threshold_index).

(** [has_vulnerabilities_above_threshold] *)
Definition has_vulnerabilities_above_threshold (out : output)
    (threshold : string) : Res bool :=
  match list_index threshold severity_levels with
  | None => Raise (ValueError ("'" ++ threshold ++ "' is not in list"))
  | Some threshold_index =>
      match out with
      | OutList results =>
          Ret (existsb
                 (fun result =>
                    check_single_result_threshold result threshold_index
                      severity_levels)
                 results)
      | OutDict result =>
          Ret (check_single_result_threshold result threshold_index
                 severity_levels)
      end
  end.

(** ** __init__.py: main *)

(** The choices of [--severity-threshold]. *)
Inductive severity : Type := low | medium | high | critical.

Definition severity_name (s : severity) : string :=
  match s with
  | low => "low"
  | medium => "medium"
  | high => "high"
  | critical => "critical"
  end.

(** The namespace [parser.parse_args()] returns. *)
Record Args : Type := {
  arg_package : option string;
  arg_ecosystem : option string;
  arg_version : option string;
  arg_packages : option string;
  arg_packages_file : option string;
  arg_vulnerability_id : option string;
  arg_osv_server : string;
  arg_anthropic_api_key : option string;
  arg_output_format : format;
  arg_output_file : option string;
  arg_fail_on_vulnerabilities : bool;
  arg_severity_threshold : severity
}.

(** The list [scan_modes] of [main]. *)
Definition scan_modes (args : Args) : list bool :=
  [ opt_truthy (arg_package args) && opt_truthy (arg_ecosystem args)
      && opt_truthy (arg_version args);
    opt_truthy (arg_packages args);
    opt_truthy (arg_packages_file args);
    opt_truthy (arg_vulnerability_id args) ].

(** [sum] of a list of booleans. *)
Fixpoint py_sum (l : list bool) : nat :=
  match l with
  | [] => 0
  | b :: l' => (if b then 1 else 0) + py_sum l'
  end.

Definition unwrap (o : option string) : string :=
  match o with Some s => s | None => "" end.

(** The branches of [main] that bind [output]. *)
Definition main_scan (env : Env) (agent : OSVAgent) (args : Args) : M output :=
  if opt_truthy (arg_vulnerability_id args) then
    result <- get_vulnerability_details env agent
                (unwrap (arg_vulnerability_id args)) ;;
    ret (OutDict [ ("vulnerability_id", of_opt (arg_vulnerability_id args));
                   ("details", PStr result) ])
  else if opt_truthy (arg_package args) then
    result <- scan_package env agent (of_opt (arg_package args))
                (of_opt (arg_ecosystem args)) (of_opt (arg_version args)) ;;
    ret (OutDict (model_dump result))
  else if opt_truthy (arg_packages args) then
    packages <- parse_packages_from_args (unwrap (arg_packages args)) ;;
    results <- scan_packages_batch env agent packages ;;
    ret (OutList (map model_dump results))
  else if opt_truthy (arg_packages_file args) then
    packages <- parse_packages_from_file env (unwrap (arg_packages_file args)) ;;
    results <- scan_packages_batch env agent packages ;;
    ret (OutList (map model_dump results))
  else
    raise (UnboundLocalError "output").

(** Rendering and writing [output]. The renderers are total on the
    outputs of [main_scan]; the history records what is rendered rather
    than the text. Printing is taken to succeed, writing a file may raise. *)
Definition main_write (env : Env) (args : Args) (out : output) : M unit :=
  let output_str :=
    match arg_output_format args with
    | Json => JsonDumps out
    | Text => TextReport out (severity_name (arg_severity_threshold args))
    end in
  if opt_truthy (arg_output_file args) then
    match file_write env (unwrap (arg_output_file args)) with
    | Some msg => raise (ExternalError msg)
    | None =>
        emit (FileWritten (unwrap (arg_output_file args)) output_str) ;;;
        emit (Stdout ("Results written to " ++ unwrap (arg_output_file args)))
    end
  else
    emit (StdoutRendered output_str).

(** The last statement of the [try] block: the exit-code policy. *)
Definition fail_on_vulnerabilities (fail_on : bool) (out : output)
    (threshold : string) : M unit :=
  if fail_on then
    above <- lift (has_vulnerabilities_above_threshold out threshold) ;;
    if above then
      emit (StderrAboveThreshold threshold) ;;;
      sys_exit 1%Z
    else ret tt
  else ret tt.

Definition mode_error : string :=
  "Error: Specify exactly one of: single package, packages list, packages file, or vulnerability ID".

(** [main], after [parser.parse_args()]. *)
Definition main (env : Env) (args : Args) : M unit :=
  if negb (Nat.eqb (py_sum (scan_modes args)) 1) then
    emit (Stderr mode_error) ;;;
    sys_exit 1%Z
  else
    let config := {| osv_server_url := arg_osv_server args;
                     anthropic_api_key := arg_anthropic_api_key args |} in
    try_except
      (agent <- OSVAgent_init env config ;;
       out <- main_scan env agent args ;;
       main_write env args out ;;;
       fail_on_vulnerabilities (arg_fail_on_vulnerabilities args) out
         (severity_name (arg_severity_threshold args)))
      (fun e =>
         emit (StderrExn "Error: " e) ;;;
         sys_exit 1%Z).

(** ** The batch scan as the specification words it *)

(** The single-package scan of one element of the package list. *)
Definition scan_entry (env : Env) (self : OSVAgent) (pkg : pyval)
  : M VulnerabilityInfo :=
  n <- lift (py_getitem pkg "package_name") ;;
  e <- lift (py_getitem pkg "ecosystem") ;;
  v <- lift (py_getitem pkg "version") ;;
  scan_package env self n e v.

(** Follows the specification, not the code: the batch scan is "a
    sequential loop over the single-package scan", so its result is the
    list of the single results, one after the other. *)
Fixpoint scan_each_in_order (env : Env) (self : OSVAgent) (pkgs : list pyval)
  : M (list VulnerabilityInfo) :=
  match pkgs with
  | [] => ret []
  | pkg :: rest =>
      r <- scan_entry env self pkg ;;
      rs <- scan_each_in_order env self rest ;;
      ret (r :: rs)
  end.

(** A package dictionary: the three keys are bound to strings. *)
Definition is_package_dict (pkg : pyval) : Prop :=
  exists d name eco ver,
    pkg = PDict d
    /\ dict_get "package_name" d = Some (PStr name)
    /\ dict_get "ecosystem" d = Some (PStr eco)
    /\ dict_get "version" d = Some (PStr ver).

(** [scanned_in_order env self pkgs w results w']: [results] lists, in the
    order of [pkgs], what [scan_package] returns for each package's name,
    ecosystem and version, the first scan starting from history [w], every
    later one from where its predecessor stopped, the last one stopping at
    [w']. *)
Inductive scanned_in_order (env : Env) (self : OSVAgent)
  : list pyval -> World -> list VulnerabilityInfo -> World -> Prop :=
| scanned_nil (w : World) : scanned_in_order env self [] w [] w
| scanned_cons (d : pydict) (name eco ver : string) (rest : list pyval)
    (w w1 w2 : World) (r : VulnerabilityInfo) (rs : list VulnerabilityInfo) :
    dict_get "package_name" d = Some (PStr name) ->
    dict_get "ecosystem" d = Some (PStr eco) ->
    dict_get "version" d = Some (PStr ver) ->
    scan_package env self (PStr name) (PStr eco) (PStr ver) w = (Ret r, w1) ->
    scanned_in_order env self rest w1 rs w2 ->
    scanned_in_order env self (PDict d :: rest) w (r :: rs) w2.

(** The results an [output] holds. *)
Definition results_of (out : output) : list pydict :=
  match out with
  | OutDict d => [d]
  | OutList l => l
  end.

(** In every result of [out], what a key [<severity>_vulnerabilities]
    holds is a list, as in the dump of a [VulnerabilityInfo]. *)
Definition severity_lists_only (out : output) : Prop :=
  forall result sev v,
    In result (results_of out) -> In sev severity_levels ->
    dict_get (sev ++ "_vulnerabilities") result = Some v ->
    exists l, v = PList l.

(** ** Package lists as the specification words them *)

(** The parts of an inline entry: stripped, then split on [:]. *)
Definition entry_parts (pkg_str : string) : list string :=
  PyStr.split ":" (PyStr.strip pkg_str).

(** An inline entry has exactly three parts. *)
Definition entry_ok (pkg_str : string) : bool :=
  Nat.eqb (length (entry_parts pkg_str)) 3.

(** An element of a loaded file contains the three required keys, in the
    sense of Python's [in]. *)
Definition has_required_keys (pkg : pyval) : bool :=
  forallb
    (fun key => match py_in key pkg with Ret true => true | _ => false end)
    required_keys.

(** The file loads, can be iterated and every element passes. *)
Definition file_accepted (env : Env) (file_path : string) : bool :=
  match json_load env file_path with
  | Loaded packages =>
      match py_iter packages with
      | Ret pkgs => forallb has_required_keys pkgs
      | _ => false
      end
  | LoadRaises _ => false
  end.

(** Every run of the agent raises. *)
Definition all_scans_fail (env : Env) : Prop :=
  forall w query, exists msg, agent_reply env w query = AgentRaises msg.

(** No threshold index makes [check_single_result_threshold] hold. *)
Definition below_every_threshold (result : pydict) : Prop :=
  forall i, check_single_result_threshold result i severity_levels = false.

(** ** Reading a history *)

(** The event hands the rendered output over: printed or written. *)
Definition delivers_output (ev : event) : bool :=
  match ev with
  | StdoutRendered _ | FileWritten _ _ => true
  | _ => false
  end.

(** The event is the message of the exit-code policy. *)
Definition trips_policy (ev : event) : bool :=
  match ev with
  | StderrAboveThreshold _ => true
  | _ => false
  end.

(** The event touches the agent: its construction or one of its runs. *)
Definition uses_agent (ev : event) : bool :=
  match ev with
  | AgentConstructed _ | AgentRun _ _ => true
  | _ => false
  end.

(** The event neither delivers the output nor reports the policy. *)
Definition silent (ev : event) : bool :=
  negb (delivers_output ev || trips_policy ev).

(** Every run of [m] only adds events that satisfy [P]. *)
Definition emits {A} (P : event -> bool) (m : M A) : Prop :=
  forall w, exists evs, snd (m w) = (w ++ evs)%list /\ forallb P evs = true.

(** ** Sample environments and inputs *)

Module Sample.

(** An environment with a key whose agent raises on every query. *)
Definition failing_env : Env :=
  {| getenv_ANTHROPIC_API_KEY := Some "sk-test";
     agent_reply := fun _ _ => AgentRaises "connection refused";
     json_load := fun _ => LoadRaises "No such file or directory";
     file_write := fun _ => None;
     container_str := fun _ => "" |}.

Definition requests_report : VulnerabilityInfo :=
  {| package_name := "requests"; ecosystem := "PyPI"; version := "2.25.0";
     vulnerabilities_found := 1;
     critical_vulnerabilities := [];
     high_vulnerabilities := ["GHSA-9hjg-9r4m-mvj7"];
     medium_vulnerabilities := [];
     recommendations := ["Upgrade to 2.32.0"];
     summary := "One high severity vulnerability" |}.

(** An environment with a key whose agent answers every query with
    [requests_report]. *)
Definition answering_env : Env :=
  {| getenv_ANTHROPIC_API_KEY := Some "sk-test";
     agent_reply := fun _ _ => AgentOutput requests_report;
     json_load := fun _ => LoadRaises "No such file or directory";
     file_write := fun _ => None;
     container_str := fun _ => "" |}.

Definition default_config : OSVConfig :=
  {| osv_server_url := "http://localhost:8080"; anthropic_api_key := None |}.

Definition mcp_config : OSVConfig :=
  {| osv_server_url := "http://localhost:8080/mcp";
     anthropic_api_key := Some "sk-cli" |}.

Definition default_agent : OSVAgent :=
  {| config := default_config;
     osv_server := MCPServerSSE "http://localhost:8080/sse" |}.

(** The namespace of a command line with no scan flag at all. *)
Definition no_mode_args : Args :=
  {| arg_package := None; arg_ecosystem := None; arg_version := None;
     arg_packages := None; arg_packages_file := None;
     arg_vulnerability_id := None;
     arg_osv_server := "http://localhost:8080";
     arg_anthropic_api_key := None;
     arg_output_format := Text; arg_output_file := None;
     arg_fail_on_vulnerabilities := true;
     arg_severity_threshold := medium |}.

(** What [--packages "requests:PyPI:2.25.0, lodash:npm:4.17.20"] loads. *)
Definition two_packages : list pyval :=
  [ PDict [ ("package_name", PStr "requests"); ("ecosystem", PStr "PyPI");
            ("version", PStr "2.25.0") ];
    PDict [ ("package_name", PStr "lodash"); ("ecosystem", PStr "npm");
            ("version", PStr "4.17.20") ] ].

(** A loaded file whose only element is a string that names the keys. *)
Definition string_element_env : Env :=
  {| getenv_ANTHROPIC_API_KEY := Some "sk-test";
     agent_reply := fun _ _ => AgentRaises "connection refused";
     json_load := fun _ => Loaded (PList [PStr "package_name ecosystem version"]);
     file_write := fun _ => None;
     container_str := fun _ => "" |}.

(** [--package requests --packages a:b:c --fail-on-vulnerabilities]: one
    mode is counted, [--packages], and [--package] comes without its
    ecosystem and version. *)
Definition stray_package_args : Args :=
  {| arg_package := Some "requests"; arg_ecosystem := None;
     arg_version := None;
     arg_packages := Some "a:b:c"; arg_packages_file := None;
     arg_vulnerability_id := None;
     arg_osv_server := "http://localhost:8080";
     arg_anthropic_api_key := None;
     arg_output_format := Text; arg_output_file := None;
     arg_fail_on_vulnerabilities := true;
     arg_severity_threshold := medium |}.

(** [--package requests --ecosystem PyPI --version 2.25.0
     --fail-on-vulnerabilities] *)
Definition single_args : Args :=
  {| arg_package := Some "requests"; arg_ecosystem := Some "PyPI";
     arg_version := Some "2.25.0";
     arg_packages := None; arg_packages_file := None;
     arg_vulnerability_id := None;
     arg_osv_server := "http://localhost:8080";
     arg_anthropic_api_key := None;
     arg_output_format := Text; arg_output_file := None;
     arg_fail_on_vulnerabilities := true;
     arg_severity_threshold := medium |}.

End Sample.

(** ** Further readings of the code *)

(** The query [scan_package] sends for one element of a package list;
    elements that are no dictionary or miss a key send none. *)
Definition entry_query (env : Env) (pkg : pyval) : option string :=
  match py_getitem pkg "package_name", py_getitem pkg "ecosystem",
        py_getitem pkg "version" with
  | Ret n, Ret e, Ret v =>
      Some ("Scan " ++ py_str env n ++ " version " ++ py_str env v
            ++ " from " ++ py_str env e ++ " ecosystem for vulnerabilities")
  | _, _, _ => None
  end.

(** The first of the three keys that a dictionary lacks, in the order
    [scan_packages_batch] looks them up. *)
Definition first_missing_key (d : pydict) : option string :=
  find (fun key => negb (dict_has key d)) required_keys.

(** Whenever [m] leaves through [sys.exit], the code is 1. *)
Definition exits_with_1 {A} (m : M A) : Prop :=
  forall w c w', m w = (SysExit c, w') -> c = 1%Z.

(** The inline text of one package and of a list of packages, as the help
    of [--packages] writes them. *)
Definition entry_text (t : string * string * string) : string :=
  let '(n, e, v) := t in n ++ ":" ++ e ++ ":" ++ v.

Definition packages_text (l : list (string * string * string)) : string :=
  String.concat "," (map entry_text l).

(** The dictionary [parse_packages_from_args] builds for a triple. *)
Definition entry_dict (t : string * string * string) : pyval :=
  let '(n, e, v) := t in
  PDict [ ("package_name", PStr n); ("ecosystem", PStr e);
          ("version", PStr v) ].

(** A field that comes back unchanged from the inline text: it holds
    neither [,] nor [:]. *)
Definition plain_field (s : string) : Prop :=
  PyStr.count "," s = 0 /\ PyStr.count ":" s = 0.

(** A triple whose text [strip] leaves alone. *)
Definition plain_triple (t : string * string * string) : Prop :=
  let '(n, e, v) := t in
  plain_field n /\ plain_field e /\ plain_field v
  /\ PyStr.lstrip_with PyStr.isspace n = n
  /\ PyStr.rstrip_with PyStr.isspace v = v.

(** The URL a transport was built on. *)
Definition transport_url (t : transport) : string :=
  match t with
  | MCPServerSSE url => url
  | MCPServerStreamableHTTP url => url
  end.

(** Inputs for the further properties. *)
Module Cases.

(** No key in the environment. *)
Definition keyless_env : Env :=
  {| getenv_ANTHROPIC_API_KEY := None;
     agent_reply := fun _ _ => AgentOutput Sample.requests_report;
     json_load := fun _ => LoadRaises "No such file or directory";
     file_write := fun _ => None;
     container_str := fun _ => "" |}.

(** [--packages "requests:PyPI" --fail-on-vulnerabilities] *)
Definition malformed_packages_args : Args :=
  {| arg_package := None; arg_ecosystem := None; arg_version := None;
     arg_packages := Some "requests:PyPI"; arg_packages_file := None;
     arg_vulnerability_id := None;
     arg_osv_server := "http://localhost:8080";
     arg_anthropic_api_key := None;
     arg_output_format := Text; arg_output_file := None;
     arg_fail_on_vulnerabilities := true;
     arg_severity_threshold := medium |}.

(** [--vulnerability-id GHSA-9hjg-9r4m-mvj7 --anthropic-api-key sk-test] *)
Definition command_line_key_args : Args :=
  {| arg_package := None; arg_ecosystem := None; arg_version := None;
     arg_packages := None; arg_packages_file := None;
     arg_vulnerability_id := Some "GHSA-9hjg-9r4m-mvj7";
     arg_osv_server := "http://localhost:8080";
     arg_anthropic_api_key := Some "sk-test";
     arg_output_format := Text; arg_output_file := None;
     arg_fail_on_vulnerabilities := false;
     arg_severity_threshold := medium |}.

(** [--vulnerability-id GHSA-9hjg-9r4m-mvj7 --fail-on-vulnerabilities
     --severity-threshold low] *)
Definition details_args : Args :=
  {| arg_package := None; arg_ecosystem := None; arg_version := None;
     arg_packages := None; arg_packages_file := None;
     arg_vulnerability_id := Some "GHSA-9hjg-9r4m-mvj7";
     arg_osv_server := "http://localhost:8080";
     arg_anthropic_api_key := None;
     arg_output_format := Text; arg_output_file := None;
     arg_fail_on_vulnerabilities := true;
     arg_severity_threshold := low |}.

(** [--packages-file packages.json] *)
Definition file_args : Args :=
  {| arg_package := None; arg_ecosystem := None; arg_version := None;
     arg_packages := None; arg_packages_file := Some "packages.json";
     arg_vulnerability_id := None;
     arg_osv_server := "http://localhost:8080";
     arg_anthropic_api_key := None;
     arg_output_format := Text; arg_output_file := None;
     arg_fail_on_vulnerabilities := false;
     arg_severity_threshold := medium |}.

(** [packages.json] holds the two packages of [Sample.two_packages]. *)
Definition dict_file_env : Env :=
  {| getenv_ANTHROPIC_API_KEY := Some "sk-test";
     agent_reply := fun _ _ => AgentOutput Sample.requests_report;
     json_load := fun _ => Loaded (PList Sample.two_packages);
     file_write := fun _ => None;
     container_str := fun _ => "" |}.

(** An environment whose files cannot be written. *)
Definition unwritable_env : Env :=
  {| getenv_ANTHROPIC_API_KEY := Some "sk-test";
     agent_reply := fun _ _ => AgentOutput Sample.requests_report;
     json_load := fun _ => LoadRaises "No such file or directory";
     file_write := fun _ => Some "Permission denied";
     container_str := fun _ => "" |}.

(** [--package requests --ecosystem PyPI --version 2.25.0
     --output-file /report.txt --fail-on-vulnerabilities] *)
Definition output_file_args : Args :=
  {| arg_package := Some "requests"; arg_ecosystem := Some "PyPI";
     arg_version := Some "2.25.0";
     arg_packages := None; arg_packages_file := None;
     arg_vulnerability_id := None;
     arg_osv_server := "http://localhost:8080";
     arg_anthropic_api_key := None;
     arg_output_format := Text; arg_output_file := Some "/report.txt";
     arg_fail_on_vulnerabilities := true;
     arg_severity_threshold := medium |}.

(** A dictionary without its [version]. *)
Definition versionless : pydict :=
  [ ("package_name", PStr "lodash"); ("ecosystem", PStr "npm") ].

Definition two_triples : list (string * string * string) :=
  [ ("requests", "PyPI", "2.25.0"); ("lodash", "npm", "4.17.20") ].

End Cases.

(** ** __init__.py: the text report *)

(** The report holds characters above 255, so its text is a list of code
    points; [text] reads a [string] as such a list. *)
Definition pytext : Type := list N.

Definition text (s : string) : pytext :=
  map N_of_ascii (list_ascii_of_string s).

(** [sep.join(l)] on texts. *)
Fixpoint text_join (sep : pytext) (l : list pytext) : pytext :=
  match l with
  | [] => []
  | [x] => x
  | x :: rest => (x ++ sep ++ text_join sep rest)%list
  end.

(** [c * n] for a one-character string [c]. *)
Definition text_repeat (c : string) (n : nat) : pytext :=
  concat (repeat (text c) n).

Module Report.

(** The decorations, code point by code point as the source file has
    them. *)
Definition glyph_package : pytext := [0x11f; 0x178; 0x201c; 0xa6]%N.
Definition glyph_found : pytext := [0x11f; 0x178; 0x201d]%N.
Definition glyph_critical : pytext := [0x11f; 0x178; 0x161; 0xa8]%N.
Definition glyph_high : pytext := [0xe2; 0x161; 0xa0; 0xef; 0xb8]%N.
Definition glyph_medium : pytext := [0xe2; 0x161; 0xa1]%N.
Definition glyph_recommendations : pytext := [0x11f; 0x178; 0x2019; 0xa1]%N.
Definition glyph_bullet : pytext := [0xe2; 0x20ac; 0xa2]%N.
Definition glyph_summary : pytext := [0x11f; 0x178; 0x201c; 0x2039]%N.
Definition glyph_batch_summary : pytext := [0x11f; 0x178; 0x201c; 0x160]%N.

(** The line feed. *)
Definition nl : pytext := [10%N].

Definition rbind {A B} (r : Res A) (k : A -> Res B) : Res B :=
  match r with
  | Ret a => k a
  | Raise e => Raise e
  | SysExit c => SysExit c
  end.

Notation "x <-- r ;; k" := (rbind r (fun x => k))
  (at level 61, r at next level, right associativity).

(** The text an f-string puts for [{v}]. *)
Definition py_text (env : Env) (v : pyval) : pytext := text (py_str env v).

(** [v > 0] *)
Definition py_gt_0 (v : pyval) : Res bool :=
  match v with
  | PInt z => Ret (0 <? z)%Z
  | PBool b => Ret b
  | _ => Raise TypeError
  end.

(** The items of a [join]: each must be a string. *)
Fixpoint join_items (l : list pyval) : Res (list pytext) :=
  match l with
  | [] => Ret []
  | PStr s :: rest => items <-- join_items rest ;; Ret (text s :: items)
  | _ :: _ => Raise TypeError
  end.

(** [sep.join(v)] *)
Definition py_join (sep : pytext) (v : pyval) : Res pytext :=
  elems <-- py_iter v ;;
  items <-- join_items elems ;;
  Ret (text_join sep items).

(** [if result[key]: lines.append(f"<label>{', '.join(result[key])}")] *)
Definition severity_line (result : pydict) (label : pytext) (key : string)
    (lines : list pytext) : Res (list pytext) :=
  v <-- py_getitem (PDict result) key ;;
  if py_truthy v then
    joined <-- py_join (text ", ") v ;;
    Ret (lines ++ [(label ++ joined)%list])%list
  else Ret lines.

(** The block of recommendations. *)
Definition recommendation_lines (env : Env) (result : pydict)
    (lines : list pytext) : Res (list pytext) :=
  v <-- py_getitem (PDict result) "recommendations" ;;
  if py_truthy v then
    recs <-- py_iter v ;;
    Ret (lines
         ++ [(nl ++ glyph_recommendations ++ text " Recommendations:")%list]
         ++ map (fun rec => (text "  " ++ glyph_bullet ++ text " "
                             ++ py_text env rec)%list) recs)%list
  else Ret lines.

(** The list [lines] of [format_single_result] before it is joined. *)
Definition format_single_result_lines (env : Env) (result : pydict)
    (threshold : string) : Res (list pytext) :=
  name <-- py_getitem (PDict result) "package_name" ;;
  eco <-- py_getitem (PDict result) "ecosystem" ;;
  ver <-- py_getitem (PDict result) "version" ;;
  found <-- py_getitem (PDict result) "vulnerabilities_found" ;;
  let lines :=
    [ (glyph_package ++ text " Package: " ++ py_text env name ++ text " ("
       ++ py_text env eco ++ text ") v" ++ py_text env ver)%list;
      (glyph_found ++ text " Vulnerabilities found: "
       ++ py_text env found)%list ] in
  positive <-- py_gt_0 found ;;
  lines <-- (if positive then
               lines <-- severity_line result
                           (glyph_critical ++ text " Critical: ")%list
                           "critical_vulnerabilities" lines ;;
               lines <-- severity_line result
                           (glyph_high ++ text "  High: ")%list
                           "high_vulnerabilities" lines ;;
               lines <-- severity_line result
                           (glyph_medium ++ text " Medium: ")%list
                           "medium_vulnerabilities" lines ;;
               recommendation_lines env result lines
             else Ret lines) ;;
  summ <-- py_getitem (PDict result) "summary" ;;
  Ret (lines ++ [(nl ++ glyph_summary ++ text " Summary: "
                  ++ py_text env summ)%list])%list.

(** [format_single_result] *)
Definition format_single_result (env : Env) (result : pydict)
    (threshold : string) : Res pytext :=
  lines <-- format_single_result_lines env result threshold ;;
  Ret (text_join nl lines).

(** [sum(1 for r in results if r['vulnerabilities_found'] > 0)] *)
Fixpoint count_vulnerable (results : list pydict) : Res nat :=
  match results with
  | [] => Ret 0
  | r :: rest =>
      found <-- py_getitem (PDict r) "vulnerabilities_found" ;;
      positive <-- py_gt_0 found ;;
      n <-- count_vulnerable rest ;;
      Ret ((if positive then 1 else 0) + n)
  end.

(** The loop of [format_batch_results]: [i] counts from 1, [total] is
    [len(results)]. *)
Fixpoint batch_entries (env : Env) (results : list pydict)
    (threshold : string) (i total : nat) (lines : list pytext)
  : Res (list pytext) :=
  match results with
  | [] => Ret lines
  | result :: rest =>
      report <-- format_single_result env result threshold ;;
      let lines :=
        (lines ++ [(py_text env (PInt (Z.of_nat i)) ++ text ". " ++ report)%list])%list in
      let lines :=
        if Nat.ltb i total then (lines ++ [text_repeat "-" 30])%list
        else lines in
      batch_entries env rest threshold (S i) total lines
  end.

(** The list [lines] of [format_batch_results] before it is joined. *)
Definition format_batch_results_lines (env : Env) (results : list pydict)
    (threshold : string) : Res (list pytext) :=
  let lines :=
    [ (glyph_found ++ text " Vulnerability Scan Results")%list;
      text_repeat "=" 50 ] in
  let total_packages := length results in
  vulnerable_packages <-- count_vulnerable results ;;
  let lines :=
    (lines
     ++ [ (glyph_batch_summary ++ text " Summary: "
           ++ py_text env (PInt (Z.of_nat vulnerable_packages)) ++ text "/"
           ++ py_text env (PInt (Z.of_nat total_packages))
           ++ text " packages have vulnerabilities")%list;
          [] ])%list in
  batch_entries env results threshold 1 total_packages lines.

(** [format_batch_results] *)
Definition format_batch_results (env : Env) (results : list pydict)
    (threshold : string) : Res pytext :=
  lines <-- format_batch_results_lines env results threshold ;;
  Ret (text_join nl lines).

(** The text branch of [main]: what a [TextReport] stands for. *)
Definition render_text (env : Env) (out : output) (threshold : string)
  : Res pytext :=
  match out with
  | OutList results => format_batch_results env results threshold
  | OutDict d =>
      if dict_has "vulnerability_id" d then
        id <-- py_getitem (PDict d) "vulnerability_id" ;;
        details <-- py_getitem (PDict d) "details" ;;
        Ret (text "Vulnerability " ++ py_text env id ++ text ":" ++ nl
             ++ py_text env details)%list
      else format_single_result env d threshold
  end.

(** The lines the report of a record has, read off its fields. *)
Definition severity_block (label : pytext) (ids : list string)
  : list pytext :=
  match ids with
  | [] => []
  | _ => [(label ++ text_join (text ", ") (map text ids))%list]
  end.

Definition recommendation_block (recs : list string) : list pytext :=
  match recs with
  | [] => []
  | _ =>
      ((nl ++ glyph_recommendations ++ text " Recommendations:")%list
       :: map (fun rec => (text "  " ++ glyph_bullet ++ text " "
                           ++ text rec)%list) recs)
  end.

Definition record_head (env : Env) (r : VulnerabilityInfo) : list pytext :=
  [ (glyph_package ++ text " Package: " ++ text (package_name r) ++ text " ("
     ++ text (ecosystem r) ++ text ") v" ++ text (version r))%list;
    (glyph_found ++ text " Vulnerabilities found: "
     ++ py_text env (PInt (vulnerabilities_found r)))%list ].

Definition record_summary (r : VulnerabilityInfo) : pytext :=
  (nl ++ glyph_summary ++ text " Summary: " ++ text (summary r))%list.

Definition record_lines (env : Env) (r : VulnerabilityInfo) : list pytext :=
  (record_head env r
   ++ (if (0 <? vulnerabilities_found r)%Z then
         severity_block (glyph_critical ++ text " Critical: ")%list
           (critical_vulnerabilities r)
         ++ severity_block (glyph_high ++ text "  High: ")%list
              (high_vulnerabilities r)
         ++ severity_block (glyph_medium ++ text " Medium: ")%list
              (medium_vulnerabilities r)
         ++ recommendation_block (recommendations r)
       else [])
   ++ [record_summary r])%list.

(** The items of a batch report, for records: the four items of its head,
    then the numbered report of each record with a rule between two of
    them. *)
Definition batch_head (env : Env) (rs : list VulnerabilityInfo)
  : list pytext :=
  [ (glyph_found ++ text " Vulnerability Scan Results")%list;
    text_repeat "=" 50;
    (glyph_batch_summary ++ text " Summary: "
     ++ py_text env
          (PInt (Z.of_nat
                   (length (filter (fun r => (0 <? vulnerabilities_found r)%Z)
                              rs))))
     ++ text "/" ++ py_text env (PInt (Z.of_nat (length rs)))
     ++ text " packages have vulnerabilities")%list;
    [] ].

Definition numbered_entry (env : Env) (i : nat) (r : VulnerabilityInfo)
  : pytext :=
  (py_text env (PInt (Z.of_nat i)) ++ text ". "
   ++ text_join nl (record_lines env r))%list.

Fixpoint numbered_entries (env : Env) (i : nat) (rs : list VulnerabilityInfo)
  : list pytext :=
  match rs with
  | [] => []
  | r :: rest =>
      numbered_entry env i r
      :: match rest with
         | [] => []
         | _ :: _ => text_repeat "-" 30 :: numbered_entries env (S i) rest
         end
  end.

End Report.

(** * Properties *)

(** ** Strings *)

Module PyStrFacts.
Import PyStr.

Lemma append_empty_r (s : string) : s ++ "" = s.
Proof. induction s as [|a s IH]; simpl; [reflexivity | now rewrite IH]. Qed.

Lemma append_assoc (s t u : string) : (s ++ t) ++ u = s ++ (t ++ u).
Proof. induction s as [|a s IH]; simpl; [reflexivity | now rewrite IH]. Qed.

Lemma length_append (s t : string) :
  String.length (s ++ t) = String.length s + String.length t.
Proof. induction s as [|a s IH]; simpl; [reflexivity | now rewrite IH]. Qed.

(** Two suffixes of one string that have the same length are equal. *)
Lemma append_same_length_suffix (p q a b : string) :
  String.length a = String.length b -> p ++ a = q ++ b -> p = q /\ a = b.
Proof.
  revert q. induction p as [|x p IH]; intros [|y q] Hlen Heq; simpl in Heq.
  - now split.
  - exfalso. subst a. simpl in Hlen. rewrite length_append in Hlen. lia.
  - exfalso. subst b. simpl in Hlen. rewrite length_append in Hlen. lia.
  - injection Heq as -> Heq. destruct (IH q Hlen Heq) as [-> ->]. now split.
Qed.

Lemma endswith_unfold (s suffix : string) :
  endswith s suffix =
  (s =? suffix) ||
  match s with
  | EmptyString => false
  | String _ s' => endswith s' suffix
  end.
Proof. destruct s; reflexivity. Qed.

Lemma endswith_iff (s suffix : string) :
  endswith s suffix = true <-> exists p, s = p ++ suffix.
Proof.
  split.
  - induction s as [|a s IH]; rewrite endswith_unfold; intros H.
    + rewrite orb_false_r in H. apply String.eqb_eq in H. now exists "".
    + apply orb_true_iff in H as [H|H].
      * apply String.eqb_eq in H. now exists "".
      * destruct (IH H) as [p ->]. now exists (String a p).
  - intros [p ->]. induction p as [|a p IH]; rewrite endswith_unfold.
    + simpl append. now rewrite String.eqb_refl.
    + simpl append. cbv iota. rewrite IH. apply orb_true_r.
Qed.

(** Two different suffixes of the same length exclude each other. *)
Lemma endswith_exclusive (s a b : string) :
  String.length a = String.length b -> a <> b ->
  endswith s a = true -> endswith s b = false.
Proof.
  intros Hlen Hne Ha. destruct (endswith s b) eqn:Hb; [|reflexivity].
  apply endswith_iff in Ha as [p ->]. apply endswith_iff in Hb as [q Hq].
  destruct (append_same_length_suffix p q a b Hlen Hq) as [_ ?]. contradiction.
Qed.

(** Stripping on the right leaves a prefix alone as soon as something of
    the rest survives. *)
Lemma rstrip_with_append (p : ascii -> bool) (s t : string) :
  rstrip_with p t <> "" -> rstrip_with p (s ++ t) = s ++ rstrip_with p t.
Proof.
  intros Ht. induction s as [|a s IH]; simpl; [reflexivity|].
  rewrite IH. destruct (s ++ rstrip_with p t) eqn:E; [|reflexivity].
  destruct s; simpl in E; [contradiction | discriminate].
Qed.

Lemma split_not_nil (sep : ascii) (s : string) : split sep s <> [].
Proof.
  induction s as [|a s IH]; simpl; [discriminate|].
  destruct (Ascii.eqb a sep); [discriminate|].
  destruct (split sep s); [contradiction | discriminate].
Qed.

(** [split] cuts at every separator: one part more than separators. *)
Lemma length_split (sep : ascii) (s : string) :
  length (split sep s) = S (count sep s).
Proof.
  induction s as [|a s IH]; simpl; [reflexivity|].
  destruct (Ascii.eqb a sep); simpl; [now rewrite IH|].
  destruct (split sep s) as [|h t] eqn:E; [discriminate IH | exact IH].
Qed.

(** No part holds the separator. *)
Lemma split_parts_free (sep : ascii) (s : string) :
  Forall (fun part => count sep part = 0) (split sep s).
Proof.
  induction s as [|a s IH]; simpl; [now repeat constructor|].
  destruct (Ascii.eqb a sep) eqn:Ea; [now constructor|].
  destruct (split sep s) as [|h t]; [repeat constructor; simpl; now rewrite Ea|].
  inversion IH as [|? ? Hh Ht]; subst. constructor; [|exact Ht].
  simpl. now rewrite Ea.
Qed.

(** Joining the parts with the separator gives the string back. *)
Lemma concat_split (sep : ascii) (s : string) :
  String.concat (String sep "") (split sep s) = s.
Proof.
  induction s as [|a s IH]; [reflexivity|].
  pose proof (split_not_nil sep s) as Hnil.
  simpl split. destruct (Ascii.eqb_spec a sep) as [->|Hne];
    destruct (split sep s) as [|h t]; try contradiction.
  - change (String.concat (String sep "") ("" :: h :: t))
      with (String sep (String.concat (String sep "") (h :: t))).
    now rewrite IH.
  - destruct t as [|h' t'].
    + simpl in *. now rewrite IH.
    + change (String.concat (String sep "") (String a h :: h' :: t'))
        with (String a (String.concat (String sep "") (h :: h' :: t'))).
      now rewrite IH.
Qed.

(** [lstrip_with] removes a prefix of characters that satisfy [p], and
    what is left does not start with one. *)
Lemma lstrip_with_decompose (p : ascii -> bool) (s : string) :
  exists pre, s = pre ++ lstrip_with p s /\ all_chars p pre = true.
Proof.
  induction s as [|a s (pre & Hs & Hpre)]; [now exists ""|].
  simpl. destruct (p a) eqn:Ha; [|now exists ""].
  exists (String a pre). simpl. rewrite Ha, Hpre. split; [now f_equal | reflexivity].
Qed.

Lemma lstrip_with_head (p : ascii -> bool) (s : string) (a : ascii)
    (t : string) :
  lstrip_with p s = String a t -> p a = false.
Proof.
  induction s as [|b s IH]; simpl; [discriminate|].
  destruct (p b) eqn:Hb; [exact IH|]. now intros [= <- _].
Qed.

(** [rstrip_with] removes a suffix of characters that satisfy [p], and
    what is left does not end with one. *)
Lemma rstrip_with_decompose (p : ascii -> bool) (s : string) :
  exists suf, s = rstrip_with p s ++ suf /\ all_chars p suf = true.
Proof.
  induction s as [|a s (suf & Hs & Hsuf)]; [now exists ""|].
  simpl. destruct (rstrip_with p s) as [|b r] eqn:Hr.
  - simpl in Hs. subst suf. destruct (p a) eqn:Ha.
    + exists (String a s). simpl. now rewrite Ha, Hsuf.
    + exists s. now split.
  - exists suf. split; [|exact Hsuf]. simpl. f_equal. exact Hs.
Qed.

Lemma rstrip_with_last (p : ascii -> bool) (s t : string) (a : ascii) :
  rstrip_with p s = t ++ String a "" -> p a = false.
Proof.
  revert t. induction s as [|b s IH]; intros t; simpl.
  - destruct t; discriminate.
  - destruct (rstrip_with p s) as [|c r] eqn:Hr.
    + destruct (p b) eqn:Hb; [destruct t; discriminate|].
      destruct t as [|x t]; simpl; [now intros [= <-]|].
      intros [= _ H]. destruct t; discriminate.
    + destruct t as [|x t]; simpl; [discriminate|].
      intros [= _ H]. now apply (IH t).
Qed.

(** [strip] keeps a middle piece between two runs of blanks. *)
Lemma strip_decompose (s : string) :
  exists pre suf,
    s = pre ++ strip s ++ suf
    /\ all_chars isspace pre = true /\ all_chars isspace suf = true.
Proof.
  unfold strip.
  destruct (lstrip_with_decompose isspace s) as (pre & Hs & Hpre).
  destruct (rstrip_with_decompose isspace (lstrip_with isspace s))
    as (suf & Hmid & Hsuf).
  exists pre, suf. repeat split; auto. now rewrite <- Hmid.
Qed.

End PyStrFacts.

(** ** The agent's constructor *)

Lemma opt_truthy_false_iff (o : option string) :
  opt_truthy o = false <-> o = None \/ o = Some "".
Proof.
  destruct o as [[|a s]|]; simpl; split; intros H; auto;
    try discriminate; destruct H as [H|H]; discriminate.
Qed.

Lemma py_or_truthy (a b : option string) :
  opt_truthy (py_or a b) = opt_truthy a || opt_truthy b.
Proof. unfold py_or. destruct (opt_truthy a) eqn:E; [exact E | reflexivity]. Qed.

Lemma rstrip_slash_mcp (base : string) :
  PyStr.rstrip_char "/" (base ++ "/mcp") = base ++ "/mcp"
  /\ PyStr.rstrip_char "/" (base ++ "/mcp/") = base ++ "/mcp".
Proof.
  unfold PyStr.rstrip_char.
  split; rewrite PyStrFacts.rstrip_with_append; try reflexivity; discriminate.
Qed.

Lemma mcp_suffix_not_sse (url : string) :
  PyStr.endswith url "/mcp" = true \/ PyStr.endswith url "/mcp/" = true ->
  PyStr.endswith url "/sse" = false.
Proof.
  intros [H|H].
  - now apply (PyStrFacts.endswith_exclusive url "/mcp" "/sse").
  - apply (PyStrFacts.endswith_exclusive url "mcp/" "/sse");
      [reflexivity | discriminate |].
    apply PyStrFacts.endswith_iff in H as [p ->].
    apply PyStrFacts.endswith_iff. exists (p ++ "/").
    now rewrite PyStrFacts.append_assoc.
Qed.

Lemma init_with_key (env : Env) (config : OSVConfig) (w : World) :
  opt_truthy (getenv_ANTHROPIC_API_KEY env) = true ->
  exists server,
    OSVAgent_init env config w
    = (Ret {| config := config; osv_server := server |},
       (w ++ [AgentConstructed server])%list)
    /\ server =
       if PyStr.endswith (osv_server_url config) "/sse" then
         MCPServerSSE (osv_server_url config)
       else if PyStr.endswith (osv_server_url config) "/mcp"
               || PyStr.endswith (osv_server_url config) "/mcp/" then
         MCPServerStreamableHTTP
           (PyStr.rstrip_char "/" (osv_server_url config) ++ "/")
       else MCPServerSSE (osv_server_url config ++ "/sse").
Proof.
  intros Hkey. unfold OSVAgent_init.
  rewrite py_or_truthy, Hkey, orb_true_r. simpl negb. cbv iota.
  eexists. split; reflexivity.
Qed.

(** A key that only the configuration holds passes the guard and is then
    missed by the model's provider. *)
Lemma init_with_config_key_only (env : Env) (config : OSVConfig) (w : World) :
  opt_truthy (anthropic_api_key config) = true ->
  opt_truthy (getenv_ANTHROPIC_API_KEY env) = false ->
  OSVAgent_init env config w = (Raise UserError, w).
Proof.
  intros Hc He. unfold OSVAgent_init.
  now rewrite py_or_truthy, Hc, He.
Qed.

Lemma init_without_key (env : Env) (config : OSVConfig) (w : World) :
  opt_truthy (anthropic_api_key config) = false ->
  opt_truthy (getenv_ANTHROPIC_API_KEY env) = false ->
  OSVAgent_init env config w
  = (Raise (ValueError
       "ANTHROPIC_API_KEY must be provided via config or environment variable"),
     w).
Proof.
  intros Hc He. unfold OSVAgent_init.
  now rewrite py_or_truthy, Hc, He.
Qed.

(** C4. With a key in the environment, [OSVAgent.__init__] returns an
    agent whose transport is read off the suffix of [osv_server_url]:
    [/sse] gives the SSE transport on the URL as it is; [/mcp] or [/mcp/]
    gives the streamable-HTTP transport on the URL ending in exactly one
    [/]; every other URL gives the SSE transport on the URL followed by
    [/sse]. Whether the configuration holds a key as well plays no part. *)
Theorem OSVAgent_init_transport (env : Env) (config : OSVConfig) (w : World) :
  opt_truthy (getenv_ANTHROPIC_API_KEY env) = true ->
  exists server,
    OSVAgent_init env config w
    = (Ret {| config := config; osv_server := server |},
       (w ++ [AgentConstructed server])%list)
    /\ (PyStr.endswith (osv_server_url config) "/sse" = true ->
        server = MCPServerSSE (osv_server_url config))
    /\ (PyStr.endswith (osv_server_url config) "/mcp" = true
        \/ PyStr.endswith (osv_server_url config) "/mcp/" = true ->
        exists base,
          (osv_server_url config = base ++ "/mcp"
           \/ osv_server_url config = base ++ "/mcp/")
          /\ server = MCPServerStreamableHTTP (base ++ "/mcp/")
          /\ PyStr.endswith (base ++ "/mcp/") "/" = true
          /\ PyStr.endswith (base ++ "/mcp/") "//" = false)
    /\ (PyStr.endswith (osv_server_url config) "/sse" = false ->
        PyStr.endswith (osv_server_url config) "/mcp" = false ->
        PyStr.endswith (osv_server_url config) "/mcp/" = false ->
        server = MCPServerSSE (osv_server_url config ++ "/sse")).
Proof.
  intros Hkey. destruct (init_with_key env config w Hkey) as (server & Hrun & Hs).
  exists server. split; [exact Hrun|]. clear Hrun.
  set (url := osv_server_url config) in *.
  split; [|split].
  - intros Hsse. now rewrite Hsse in Hs.
  - intros Hmcp. rewrite (mcp_suffix_not_sse url Hmcp) in Hs.
    assert (Hor : PyStr.endswith url "/mcp" || PyStr.endswith url "/mcp/" = true)
      by (apply orb_true_iff; exact Hmcp).
    rewrite Hor in Hs.
    assert (Hbase : exists base,
               (url = base ++ "/mcp" \/ url = base ++ "/mcp/")
               /\ PyStr.rstrip_char "/" url = base ++ "/mcp").
    { destruct Hmcp as [H|H]; apply PyStrFacts.endswith_iff in H as [base Hb];
        exists base; rewrite Hb;
        destruct (rstrip_slash_mcp base) as [H1 H2]; auto. }
    destruct Hbase as (base & Hshape & Hstrip). exists base.
    split; [exact Hshape|]. rewrite Hstrip, PyStrFacts.append_assoc in Hs.
    split; [exact Hs|]. split.
    + apply PyStrFacts.endswith_iff. exists (base ++ "/mcp").
      now rewrite PyStrFacts.append_assoc.
    + apply (PyStrFacts.endswith_exclusive _ "p/" "//");
        [reflexivity | discriminate |].
      apply PyStrFacts.endswith_iff. exists (base ++ "/mc").
      now rewrite PyStrFacts.append_assoc.
  - intros H1 H2 H3. now rewrite H1, H2, H3 in Hs.
Qed.

Lemma OSVAgent_init_transport_witness :
  exists server,
    OSVAgent_init Sample.failing_env Sample.mcp_config []
    = (Ret {| config := Sample.mcp_config; osv_server := server |},
       [AgentConstructed server])
    /\ server = MCPServerStreamableHTTP "http://localhost:8080/mcp/".
Proof.
  destruct (OSVAgent_init_transport Sample.failing_env Sample.mcp_config []
              eq_refl) as (server & Hrun & _ & Hmcp & _).
  exists server. split; [exact Hrun|].
  destruct (Hmcp (or_introl eq_refl)) as (base & Hshape & Hs & _).
  rewrite Hs. f_equal.
  destruct Hshape as [H|H]; simpl in H.
  - change "http://localhost:8080/mcp/" with ("http://localhost:8080/mcp" ++ "/").
    rewrite H. now rewrite PyStrFacts.append_assoc.
  - exfalso.
    assert (E : PyStr.endswith "http://localhost:8080/mcp" "/mcp/" = true)
      by (apply PyStrFacts.endswith_iff; now exists base).
    discriminate E.
Defined.

(** C10. [OSVAgent.__init__] raises its [ValueError] exactly when the
    configured key is unset or empty and the environment variable is unset
    or empty. As soon as one of the two supplies a key the guard is passed
    and that error is not raised: the constructor returns an agent when the
    key is in the environment, and ends in the [UserError] of the model's
    provider when only the configuration holds it. *)
Theorem OSVAgent_init_key_guard (env : Env) (config : OSVConfig) (w : World) :
  ((exists msg w', OSVAgent_init env config w = (Raise (ValueError msg), w'))
   <-> (anthropic_api_key config = None \/ anthropic_api_key config = Some "")
       /\ (getenv_ANTHROPIC_API_KEY env = None
           \/ getenv_ANTHROPIC_API_KEY env = Some ""))
  /\ (opt_truthy (anthropic_api_key config) = true
      \/ opt_truthy (getenv_ANTHROPIC_API_KEY env) = true ->
      (exists agent w', OSVAgent_init env config w = (Ret agent, w'))
      \/ OSVAgent_init env config w = (Raise UserError, w))
  /\ ((exists agent w', OSVAgent_init env config w = (Ret agent, w'))
      <-> opt_truthy (getenv_ANTHROPIC_API_KEY env) = true)
  /\ (OSVAgent_init env config w = (Raise UserError, w)
      <-> opt_truthy (anthropic_api_key config) = true
          /\ opt_truthy (getenv_ANTHROPIC_API_KEY env) = false).
Proof.
  rewrite <- !opt_truthy_false_iff.
  destruct (opt_truthy (getenv_ANTHROPIC_API_KEY env)) eqn:He.
  - destruct (init_with_key env config w He) as (server & Hrun & _).
    rewrite Hrun. split; [|split; [|split]].
    + split.
      * intros (msg & w' & Hx). discriminate Hx.
      * intros [_ Hx]. discriminate Hx.
    + intros _. left. eexists. eexists. reflexivity.
    + split; [reflexivity|]. intros _. eexists. eexists. reflexivity.
    + split.
      * intros Hx. discriminate Hx.
      * intros [_ Hx]. discriminate Hx.
  - destruct (opt_truthy (anthropic_api_key config)) eqn:Hc.
    + rewrite (init_with_config_key_only env config w Hc He).
      split; [|split; [|split]].
      * split.
        -- intros (msg & w' & Hx). discriminate Hx.
        -- intros [Hx _]. discriminate Hx.
      * intros _. right. reflexivity.
      * split.
        -- intros (agent & w' & Hx). discriminate Hx.
        -- intros Hx. discriminate Hx.
      * split; [split; reflexivity | reflexivity].
    + rewrite (init_without_key env config w Hc He).
      split; [|split; [|split]].
      * split.
        -- split; reflexivity.
        -- intros _. eexists. eexists. reflexivity.
      * intros [Hx|Hx]; discriminate Hx.
      * split.
        -- intros (agent & w' & Hx). discriminate Hx.
        -- intros Hx. discriminate Hx.
      * split.
        -- intros Hx. discriminate Hx.
        -- intros [Hx _]. discriminate Hx.
Qed.

(** ** Single scans and detail lookups *)

Lemma scan_package_run (env : Env) (self : OSVAgent)
    (name eco ver : string) (w : World) :
  scan_package env self (PStr name) (PStr eco) (PStr ver) w
  = let query := "Scan " ++ name ++ " version " ++ ver ++ " from " ++ eco
                 ++ " ecosystem for vulnerabilities" in
    (match agent_reply env w query with
     | AgentOutput out => Ret out
     | AgentRaises e =>
         Ret {| package_name := name; ecosystem := eco; version := ver;
                vulnerabilities_found := 0;
                critical_vulnerabilities := [];
                high_vulnerabilities := [];
                medium_vulnerabilities := [];
                recommendations := ["Error scanning package: " ++ e];
                summary := "Failed to scan " ++ name ++ "@" ++ ver ++ ": " ++ e |}
     end,
     (w ++ [AgentRun (osv_server self) query])%list).
Proof.
  unfold scan_package, bind, agent_run. simpl py_str.
  destruct (agent_reply env w _); reflexivity.
Qed.

(** C2. Whatever exception the agent run raises, [scan_package] returns
    the default error record: the three inputs echoed, a count of 0, three
    empty severity lists, one recommendation that carries the error
    message, and the summary [Failed to scan <name>@<version>: <error>];
    nothing is raised and the process is not left. *)
Theorem scan_package_error_record (env : Env) (self : OSVAgent)
    (name eco ver msg : string) (w : World) :
  agent_reply env w
    ("Scan " ++ name ++ " version " ++ ver ++ " from " ++ eco
     ++ " ecosystem for vulnerabilities") = AgentRaises msg ->
  scan_package env self (PStr name) (PStr eco) (PStr ver) w
  = (Ret {| package_name := name; ecosystem := eco; version := ver;
            vulnerabilities_found := 0;
            critical_vulnerabilities := [];
            high_vulnerabilities := [];
            medium_vulnerabilities := [];
            recommendations := ["Error scanning package: " ++ msg];
            summary := "Failed to scan " ++ name ++ "@" ++ ver ++ ": " ++ msg |},
     (w ++ [AgentRun (osv_server self)
              ("Scan " ++ name ++ " version " ++ ver ++ " from " ++ eco
               ++ " ecosystem for vulnerabilities")])%list).
Proof.
  intros Hraise. rewrite scan_package_run. cbv zeta. now rewrite Hraise.
Qed.

Lemma scan_package_error_record_witness :
  scan_package Sample.failing_env Sample.default_agent
    (PStr "requests") (PStr "PyPI") (PStr "2.25.0") []
  = (Ret {| package_name := "requests"; ecosystem := "PyPI";
            version := "2.25.0";
            vulnerabilities_found := 0;
            critical_vulnerabilities := [];
            high_vulnerabilities := [];
            medium_vulnerabilities := [];
            recommendations := ["Error scanning package: connection refused"];
            summary := "Failed to scan requests@2.25.0: connection refused" |},
     [AgentRun (MCPServerSSE "http://localhost:8080/sse")
        "Scan requests version 2.25.0 from PyPI ecosystem for vulnerabilities"]).
Proof.
  exact (scan_package_error_record Sample.failing_env Sample.default_agent
           "requests" "PyPI" "2.25.0" "connection refused" [] eq_refl).
Defined.

(** C7. [get_vulnerability_details] runs the agent once, on the query
    built from the identifier, and returns a string: the summary of the
    structured output, or [Error retrieving vulnerability details: ]
    followed by the message of the exception; it raises nothing. *)
Theorem get_vulnerability_details_result (env : Env) (self : OSVAgent)
    (vulnerability_id : string) (w : World) :
  exists details,
    get_vulnerability_details env self vulnerability_id w
    = (Ret details,
       (w ++ [AgentRun (osv_server self)
                ("Get detailed information about vulnerability "
                 ++ vulnerability_id)])%list)
    /\ match agent_reply env w
               ("Get detailed information about vulnerability "
                ++ vulnerability_id) with
       | AgentOutput out => details = summary out
       | AgentRaises msg =>
           details = "Error retrieving vulnerability details: " ++ msg
       end.
Proof.
  unfold get_vulnerability_details, bind, agent_run, ret.
  destruct (agent_reply env w _); eexists; split; reflexivity.
Qed.

(** ** The batch scan *)

Section Batch.
Variables (env : Env) (self : OSVAgent).

(** The loop with its accumulator against the recursive map. *)
Lemma scan_packages_loop_acc (pkgs : list pyval) :
  forall (results : list VulnerabilityInfo) (w : World),
    scan_packages_loop env self pkgs results w
    = match scan_each_in_order env self pkgs w with
      | (Ret rs, w') => (Ret (results ++ rs)%list, w')
      | (Raise e, w') => (Raise e, w')
      | (SysExit c, w') => (SysExit c, w')
      end.
Proof.
  induction pkgs as [|pkg rest IH]; intros results w.
  - simpl. unfold ret. now rewrite app_nil_r.
  - simpl. unfold scan_entry, bind, lift.
    destruct (py_getitem pkg "package_name") as [n|e|c]; try reflexivity.
    destruct (py_getitem pkg "ecosystem") as [eco|e|c]; try reflexivity.
    destruct (py_getitem pkg "version") as [v|e|c]; try reflexivity.
    destruct (scan_package env self n eco v w) as [[r|e|c] w1]; try reflexivity.
    rewrite IH.
    destruct (scan_each_in_order env self rest w1) as [[rs|e|c] w2];
      try reflexivity.
    unfold ret. now rewrite <- app_assoc.
Qed.

Lemma scan_packages_batch_sequential (pkgs : list pyval) (w : World) :
  scan_packages_batch env self (PList pkgs) w
  = scan_each_in_order env self pkgs w.
Proof.
  unfold scan_packages_batch, bind, lift. simpl py_iter. cbv iota.
  rewrite scan_packages_loop_acc.
  destruct (scan_each_in_order env self pkgs w) as [[rs|e|c] w']; reflexivity.
Qed.

Lemma scan_each_in_order_total (pkgs : list pyval) :
  Forall is_package_dict pkgs ->
  forall w, exists results w',
    scan_each_in_order env self pkgs w = (Ret results, w')
    /\ scanned_in_order env self pkgs w results w'
    /\ length results = length pkgs.
Proof.
  induction 1 as [|pkg rest Hpkg _ IH]; intros w.
  - exists [], w. repeat split. constructor.
  - destruct Hpkg as (d & name & eco & ver & -> & Hn & He & Hv).
    assert (Hscan : exists r w1,
               scan_package env self (PStr name) (PStr eco) (PStr ver) w
               = (Ret r, w1)).
    { rewrite scan_package_run. cbv zeta.
      destruct (agent_reply env w _); eauto. }
    destruct Hscan as (r & w1 & Hscan).
    destruct (IH w1) as (rs & w2 & Hrest & Hrel & Hlen).
    exists (r :: rs), w2. split; [|split].
    + simpl. unfold scan_entry, bind, lift, py_getitem.
      rewrite Hn, He, Hv, Hscan, Hrest. reflexivity.
    + econstructor; eassumption.
    + simpl. now rewrite Hlen.
Qed.

End Batch.

(** C5. On a list of package dictionaries [scan_packages_batch] is the
    sequential loop over the single-package scan: it returns, and what it
    returns lists the results of [scan_package] on each package's name,
    ecosystem and version, in the order of the input and as many as the
    input has; on the empty list it returns the empty list. *)
Theorem scan_packages_batch_in_order (env : Env) (self : OSVAgent)
    (pkgs : list pyval) (w : World) :
  Forall is_package_dict pkgs ->
  scan_packages_batch env self (PList pkgs) w
  = scan_each_in_order env self pkgs w
  /\ (exists results w',
        scan_packages_batch env self (PList pkgs) w = (Ret results, w')
        /\ scanned_in_order env self pkgs w results w'
        /\ length results = length pkgs)
  /\ scan_packages_batch env self (PList []) w = (Ret [], w).
Proof.
  intros Hpkgs. split; [apply scan_packages_batch_sequential|]. split.
  - rewrite scan_packages_batch_sequential.
    apply scan_each_in_order_total, Hpkgs.
  - reflexivity.
Qed.

Lemma scan_packages_batch_in_order_witness :
  exists results w',
    scan_packages_batch Sample.answering_env Sample.default_agent
      (PList Sample.two_packages) [] = (Ret results, w')
    /\ length results = 2.
Proof.
  assert (H : Forall is_package_dict Sample.two_packages).
  { repeat constructor; unfold is_package_dict;
      do 4 eexists; repeat split; reflexivity. }
  destruct (scan_packages_batch_in_order Sample.answering_env
              Sample.default_agent Sample.two_packages [] H)
    as (_ & (results & w' & Hrun & _ & Hlen) & _).
  exists results, w'. split; assumption.
Defined.

(** ** The severity threshold *)

Lemma check_levels_from_true_iff (d : pydict) (levels : list string) (n : nat) :
  forall i,
    check_levels_from d levels i n = true
    <-> exists k v,
          i <= k /\ k < i + n
          /\ dict_get (nth k levels "" ++ "_vulnerabilities") d = Some v
          /\ py_truthy v = true.
Proof.
  induction n as [|n IH]; intros i; simpl.
  - split; [discriminate | intros (k & v & ? & ? & _); lia].
  - unfold dict_has.
    destruct (dict_get (nth i levels "" ++ "_vulnerabilities") d) as [v|] eqn:Hget.
    + simpl. destruct (py_truthy v) eqn:Hv.
      * split; [intros _ | reflexivity]. exists i, v. repeat split; auto; lia.
      * rewrite IH. split; intros (k & v' & Hle & Hlt & Hk & Hv').
        -- exists k, v'. repeat split; auto; lia.
        -- exists k, v'. repeat split; auto; try lia.
           destruct (Nat.eq_dec k i) as [->|]; [congruence | lia].
    + simpl. rewrite IH. split; intros (k & v' & Hle & Hlt & Hk & Hv').
      * exists k, v'. repeat split; auto; lia.
      * exists k, v'. repeat split; auto; try lia.
        destruct (Nat.eq_dec k i) as [->|]; [congruence | lia].
Qed.

Lemma check_single_true_iff (d : pydict) (j : nat) (levels : list string) :
  check_single_result_threshold d j levels = true
  <-> exists k v,
        j <= k /\ k < length levels
        /\ dict_get (nth k levels "" ++ "_vulnerabilities") d = Some v
        /\ py_truthy v = true.
Proof.
  unfold check_single_result_threshold. rewrite check_levels_from_true_iff.
  split; intros (k & v & Hle & Hlt & H); exists k, v; repeat split;
    try tauto; lia.
Qed.

Lemma list_index_nth (x : string) (l : list string) :
  forall k, list_index x l = Some k -> k < length l /\ nth k l "" = x.
Proof.
  induction l as [|y l IH]; intros k; cbn [list_index]; [discriminate|].
  destruct (String.eqb_spec y x) as [->|Hne].
  - intros [= <-]. split; [simpl; lia | reflexivity].
  - destruct (list_index x l) as [i|]; [|discriminate].
    intros [= <-]. destruct (IH i eq_refl) as [Hlt Hnth].
    split; [simpl; lia | exact Hnth].
Qed.

(** Positions in [severity_levels] and [list.index] agree. *)
Lemma severity_index_nth (sev : string) (k : nat) :
  list_index sev severity_levels = Some k
  <-> k < length severity_levels /\ nth k severity_levels "" = sev.
Proof.
  split; [apply list_index_nth|].
  intros [Hlt <-]. simpl in Hlt.
  destruct k as [|[|[|[|k]]]]; try reflexivity. lia.
Qed.

Lemma severity_index_total (t : string) :
  In t severity_levels -> exists j, list_index t severity_levels = Some j.
Proof.
  intros Hin. apply In_nth with (d := "") in Hin as (j & Hlt & Hnth).
  exists j. apply severity_index_nth. now split.
Qed.

Lemma has_vulnerabilities_run (out : output) (t : string) (j : nat) :
  list_index t severity_levels = Some j ->
  has_vulnerabilities_above_threshold out t
  = Ret (existsb
           (fun result => check_single_result_threshold result j severity_levels)
           (results_of out)).
Proof.
  intros Hj. unfold has_vulnerabilities_above_threshold. rewrite Hj.
  destruct out as [d|l]; simpl results_of; [|reflexivity].
  cbn [existsb]. now rewrite orb_false_r.
Qed.

Lemma fail_on_vulnerabilities_run (out : output) (t : string) (above : bool)
    (w : World) :
  has_vulnerabilities_above_threshold out t = Ret above ->
  fail_on_vulnerabilities true out t w
  = if above then (SysExit 1%Z, (w ++ [StderrAboveThreshold t])%list)
    else (Ret tt, w).
Proof.
  intros H. unfold fail_on_vulnerabilities, bind, lift. rewrite H.
  destruct above; reflexivity.
Qed.

(** [main] step by step: what the [try] block and its handler come to. *)
Lemma main_steps (env : Env) (args : Args) (w : World) :
  main env args w
  = if negb (Nat.eqb (py_sum (scan_modes args)) 1) then
      (SysExit 1%Z, (w ++ [Stderr mode_error])%list)
    else
      let failed (e : exn) (w' : World) : Res unit * World :=
        (SysExit 1%Z, (w' ++ [StderrExn "Error: " e])%list) in
      match OSVAgent_init env
              {| osv_server_url := arg_osv_server args;
                 anthropic_api_key := arg_anthropic_api_key args |} w with
      | (Ret agent, w1) =>
          match main_scan env agent args w1 with
          | (Ret out, w2) =>
              match main_write env args out w2 with
              | (Ret _, w3) =>
                  match fail_on_vulnerabilities
                          (arg_fail_on_vulnerabilities args) out
                          (severity_name (arg_severity_threshold args)) w3 with
                  | (Raise e, w4) => failed e w4
                  | r => r
                  end
              | (Raise e, w3) => failed e w3
              | (SysExit c, w3) => (SysExit c, w3)
              end
          | (Raise e, w2) => failed e w2
          | (SysExit c, w2) => (SysExit c, w2)
          end
      | (Raise e, w1) => failed e w1
      | (SysExit c, w1) => (SysExit c, w1)
      end.
Proof.
  unfold main. destruct (negb _); [reflexivity|].
  unfold try_except, bind. cbv zeta.
  destruct (OSVAgent_init env _ w) as [[agent|e|c] w1]; try reflexivity.
  destruct (main_scan env agent args w1) as [[out|e|c] w2]; try reflexivity.
  destruct (main_write env args out w2) as [[[]|e|c] w3]; reflexivity.
Qed.

(** C1. For an output whose severity keys hold lists and a threshold [t]
    of [severity_levels]: [has_vulnerabilities_above_threshold] returns a
    boolean, true exactly when some result holds a non-empty list under
    [<sev>_vulnerabilities] for a severity [sev] whose index is at least
    the index of [t]; with [--fail-on-vulnerabilities] set the policy step
    leaves with code 1 exactly in that case and with code 0 otherwise, and
    without the flag the code is 0; a run of [main] that has scanned and
    written this output ends as the policy step does. *)
Theorem fail_on_vulnerabilities_exit_code (out : output) (t : string)
    (w : World) :
  In t severity_levels -> severity_lists_only out ->
  exists above,
    has_vulnerabilities_above_threshold out t = Ret above
    /\ (above = true
        <-> exists result sev i j l,
              In result (results_of out)
              /\ list_index sev severity_levels = Some i
              /\ list_index t severity_levels = Some j
              /\ j <= i
              /\ dict_get (sev ++ "_vulnerabilities") result = Some (PList l)
              /\ l <> [])
    /\ (exit_code (fst (fail_on_vulnerabilities true out t w)) = 1%Z
        <-> above = true)
    /\ (above = false
        -> exit_code (fst (fail_on_vulnerabilities true out t w)) = 0%Z)
    /\ exit_code (fst (fail_on_vulnerabilities false out t w)) = 0%Z
    /\ (forall env args w0 agent w1 w2,
          py_sum (scan_modes args) = 1 ->
          OSVAgent_init env
            {| osv_server_url := arg_osv_server args;
               anthropic_api_key := arg_anthropic_api_key args |} w0
          = (Ret agent, w1) ->
          main_scan env agent args w1 = (Ret out, w2) ->
          main_write env args out w2 = (Ret tt, w) ->
          severity_name (arg_severity_threshold args) = t ->
          main env args w0
          = fail_on_vulnerabilities (arg_fail_on_vulnerabilities args) out t w).
Proof.
  intros Ht Hlists. destruct (severity_index_total t Ht) as [j Hj].
  pose proof (has_vulnerabilities_run out t j Hj) as Hrun.
  eexists. split; [exact Hrun|]. split; [|split; [|split; [|split]]].
  - rewrite existsb_exists. split.
    + intros (result & Hin & Hcheck).
      apply check_single_true_iff in Hcheck as (k & v & Hle & Hlt & Hget & Hv).
      assert (Hsev : In (nth k severity_levels "") severity_levels)
        by now apply nth_In.
      destruct (Hlists result _ v Hin Hsev Hget) as [l ->].
      exists result, (nth k severity_levels ""), k, j, l.
      repeat split; auto.
      * apply severity_index_nth. now split.
      * intros ->. discriminate Hv.
    + intros (result & sev & i & j' & l & Hin & Hi & Hj' & Hle & Hget & Hl).
      rewrite Hj in Hj'. injection Hj' as <-.
      apply severity_index_nth in Hi as [Hlt Hnth].
      exists result. split; [exact Hin|].
      apply check_single_true_iff. exists i, (PList l).
      rewrite Hnth. repeat split; auto.
      destruct l; [contradiction | reflexivity].
  - rewrite (fail_on_vulnerabilities_run out t _ w Hrun).
    destruct (existsb _ _); simpl; split; auto; discriminate.
  - intros Habove. rewrite (fail_on_vulnerabilities_run out t _ w Hrun), Habove.
    reflexivity.
  - reflexivity.
  - intros env args w0 agent w1 w2 Hcount Hinit Hscan Hwrite Hname.
    rewrite main_steps, Hcount. cbn [Nat.eqb negb]. cbv zeta.
    rewrite Hinit, Hscan, Hwrite, Hname.
    destruct (arg_fail_on_vulnerabilities args); [|reflexivity].
    rewrite (fail_on_vulnerabilities_run out t _ w Hrun).
    destruct (existsb _ _); reflexivity.
Qed.

Lemma model_dump_lists_only (rs : list VulnerabilityInfo) :
  severity_lists_only (OutList (map model_dump rs)).
Proof.
  intros result sev v Hin Hsev Hget. simpl in Hin.
  apply in_map_iff in Hin as (r & <- & _).
  destruct Hsev as [<-|[<-|[<-|[<-|[]]]]]; cbn in Hget;
    try discriminate; injection Hget as <-; eauto.
Qed.

Lemma fail_on_vulnerabilities_exit_code_witness :
  exit_code
    (fst (fail_on_vulnerabilities true
            (OutList (map model_dump [Sample.requests_report])) "medium" []))
  = 1%Z.
Proof.
  destruct (fail_on_vulnerabilities_exit_code
              (OutList (map model_dump [Sample.requests_report])) "medium" []
              (or_intror (or_introl eq_refl))
              (model_dump_lists_only [Sample.requests_report]))
    as (above & Hrun & _ & Hexit & _).
  apply Hexit. injection Hrun as <-. reflexivity.
Defined.

Lemma model_dump_single_lists_only (r : VulnerabilityInfo) :
  severity_lists_only (OutDict (model_dump r)).
Proof.
  intros result sev v Hin. apply (model_dump_lists_only [r] result sev v).
  exact Hin.
Qed.

Lemma model_dump_has_no_low (r : VulnerabilityInfo) :
  dict_has "low_vulnerabilities" (model_dump r) = false.
Proof. reflexivity. Qed.

Lemma check_dump_low_medium (r : VulnerabilityInfo) :
  check_single_result_threshold (model_dump r) 0 severity_levels
  = check_single_result_threshold (model_dump r) 1 severity_levels.
Proof.
  unfold check_single_result_threshold, severity_levels.
  cbn [length Nat.sub check_levels_from nth].
  change ("low" ++ "_vulnerabilities") with "low_vulnerabilities".
  now rewrite model_dump_has_no_low.
Qed.

(** C8. On the dump of a [VulnerabilityInfo], or on a list of such dumps,
    the threshold [low] gives the same answer as [medium]: the record has
    no [low_vulnerabilities] key, so the lowest level never counts. *)
Theorem low_threshold_same_as_medium (r : VulnerabilityInfo)
    (rs : list VulnerabilityInfo) :
  dict_has "low_vulnerabilities" (model_dump r) = false
  /\ has_vulnerabilities_above_threshold (OutDict (model_dump r)) "low"
     = has_vulnerabilities_above_threshold (OutDict (model_dump r)) "medium"
  /\ has_vulnerabilities_above_threshold (OutList (map model_dump rs)) "low"
     = has_vulnerabilities_above_threshold (OutList (map model_dump rs)) "medium".
Proof.
  split; [apply model_dump_has_no_low|].
  rewrite !(has_vulnerabilities_run _ "low" 0 eq_refl),
          !(has_vulnerabilities_run _ "medium" 1 eq_refl).
  split.
  - simpl results_of. cbn [existsb]. now rewrite check_dump_low_medium.
  - simpl results_of. apply f_equal.
    induction rs as [|r' rs' IH]; [reflexivity|].
    cbn [map existsb]. now rewrite check_dump_low_medium, IH.
Qed.

(** ** Rejecting a command line *)

Lemma opt_truthy_true_iff (o : option string) :
  opt_truthy o = true <-> exists s, o = Some s /\ s <> "".
Proof.
  destruct o as [[|a s]|]; simpl; split; intros H; try discriminate.
  - destruct H as (s & [= <-] & Hne). contradiction.
  - exists (String a s). split; [reflexivity | discriminate].
  - reflexivity.
  - destruct H as (s & H & _). discriminate.
Qed.

(** C3. [main] counts four modes: the single-package mode, on when
    [--package], [--ecosystem] and [--version] are all given and non-empty,
    and one mode for each of [--packages], [--packages-file] and
    [--vulnerability-id]; when the count is not 1 the run prints the error
    on stderr and leaves with code 1, and that message is the only event:
    no agent is constructed and no scan is run. *)
Theorem main_rejects_mode_count (env : Env) (args : Args) (w : World) :
  py_sum (scan_modes args) <> 1 ->
  (exists single,
      scan_modes args
      = [ single; opt_truthy (arg_packages args);
          opt_truthy (arg_packages_file args);
          opt_truthy (arg_vulnerability_id args) ]
      /\ (single = true
          <-> exists p e v,
                arg_package args = Some p /\ p <> ""
                /\ arg_ecosystem args = Some e /\ e <> ""
                /\ arg_version args = Some v /\ v <> ""))
  /\ main env args w = (SysExit 1%Z, (w ++ [Stderr mode_error])%list)
  /\ exit_code (fst (main env args w)) = 1%Z
  /\ existsb uses_agent [Stderr mode_error] = false.
Proof.
  intros Hcount. split; [|split; [|split]].
  - eexists. split; [reflexivity|].
    rewrite !andb_true_iff, !opt_truthy_true_iff. split.
    + intros [[(p & Hp & Hp') (e & He & He')] (v & Hv & Hv')].
      exists p, e, v. tauto.
    + intros (p & e & v & Hp & Hp' & He & He' & Hv & Hv'). eauto 10.
  - unfold main. apply Nat.eqb_neq in Hcount. rewrite Hcount. reflexivity.
  - unfold main. apply Nat.eqb_neq in Hcount. rewrite Hcount. reflexivity.
  - reflexivity.
Qed.

Lemma main_rejects_mode_count_witness :
  main Sample.answering_env Sample.no_mode_args []
  = (SysExit 1%Z, [Stderr mode_error]).
Proof.
  assert (H : py_sum (scan_modes Sample.no_mode_args) <> 1)
    by (vm_compute; discriminate).
  exact (proj1 (proj2 (main_rejects_mode_count Sample.answering_env
                         Sample.no_mode_args [] H))).
Defined.

(** ** The events a computation adds *)

Section Emits.
Context {P : event -> bool}.

Lemma emits_lift {A} (r : Res A) : emits P (lift r).
Proof. intros w. exists []. now rewrite app_nil_r. Qed.

Lemma emits_ret {A} (a : A) : emits P (ret a).
Proof. intros w. exists []. now rewrite app_nil_r. Qed.

Lemma emits_emit (ev : event) : P ev = true -> emits P (emit ev).
Proof. intros H w. exists [ev]. simpl. now rewrite H. Qed.

Lemma emits_bind {A B} (m : M A) (k : A -> M B) :
  emits P m -> (forall a, emits P (k a)) -> emits P (bind m k).
Proof.
  intros Hm Hk w. unfold bind. destruct (Hm w) as (evs1 & Hw1 & Hp1).
  destruct (m w) as [[a|e|c] w1]; simpl in Hw1; subst w1;
    try (exists evs1; now split).
  destruct (Hk a (w ++ evs1)%list) as (evs2 & Hw2 & Hp2).
  exists (evs1 ++ evs2)%list. rewrite Hw2, app_assoc, forallb_app, Hp1, Hp2.
  now split.
Qed.

Lemma emits_try_except {A} (m : M A) (handler : exn -> M A) :
  emits P m -> (forall e, emits P (handler e)) -> emits P (try_except m handler).
Proof.
  intros Hm Hh w. unfold try_except. destruct (Hm w) as (evs1 & Hw1 & Hp1).
  destruct (m w) as [[a|e|c] w1]; simpl in Hw1; subst w1;
    try (exists evs1; now split).
  destruct (Hh e (w ++ evs1)%list) as (evs2 & Hw2 & Hp2).
  exists (evs1 ++ evs2)%list. rewrite Hw2, app_assoc, forallb_app, Hp1, Hp2.
  now split.
Qed.

Lemma emits_agent_run (env : Env) (self : OSVAgent) (query : string) :
  P (AgentRun (osv_server self) query) = true ->
  emits P (agent_run env self query).
Proof. intros H w. eexists [_]. simpl. now rewrite H. Qed.

End Emits.

(** Walks down a computation built from [bind], [lift], [ret], [emit] and
    agent runs, leaving the calls it does not know. *)
Ltac emits_walk :=
  repeat lazymatch goal with
    | |- emits _ (ret _) => apply emits_ret
    | |- emits _ (lift _) => apply emits_lift
    | |- emits _ (emit _) => apply emits_emit; reflexivity
    | |- emits _ (agent_run _ _ _) => apply emits_agent_run; reflexivity
    | |- emits _ (bind _ _) => apply emits_bind; [|intros ?]
    | |- emits _ (try_except _ _) => apply emits_try_except; [|intros ?]
    end.

Lemma silent_history (evs : list event) :
  forallb silent evs = true ->
  existsb delivers_output evs = false /\ existsb trips_policy evs = false.
Proof.
  induction evs as [|ev evs IH]; simpl; [now split|].
  intros H. apply andb_true_iff in H as [Hev Hevs].
  destruct (IH Hevs) as [-> ->]. unfold silent in Hev.
  apply negb_true_iff, orb_false_iff in Hev as [-> ->]. now split.
Qed.

Section SilentSteps.
Variable env : Env.

Lemma scan_package_silent (self : OSVAgent) (n e v : pyval) :
  emits silent (scan_package env self n e v).
Proof. unfold scan_package. emits_walk. destruct a; emits_walk. Qed.

Lemma scan_packages_loop_silent (self : OSVAgent) (pkgs : list pyval) :
  forall results, emits silent (scan_packages_loop env self pkgs results).
Proof.
  induction pkgs as [|pkg rest IH]; intros results; simpl; emits_walk.
  - apply scan_package_silent.
  - apply IH.
Qed.

Lemma scan_packages_batch_silent (self : OSVAgent) (packages : pyval) :
  emits silent (scan_packages_batch env self packages).
Proof.
  unfold scan_packages_batch. emits_walk. apply scan_packages_loop_silent.
Qed.

Lemma get_vulnerability_details_silent (self : OSVAgent) (id : string) :
  emits silent (get_vulnerability_details env self id).
Proof. unfold get_vulnerability_details. emits_walk. destruct a; emits_walk. Qed.

Lemma parse_packages_from_args_silent (packages_str : string) :
  emits silent (parse_packages_from_args packages_str).
Proof. unfold parse_packages_from_args, sys_exit. emits_walk. Qed.

Lemma parse_packages_from_file_silent (file_path : string) :
  emits silent (parse_packages_from_file env file_path).
Proof.
  unfold parse_packages_from_file, sys_exit, raise. emits_walk.
  destruct (json_load env file_path); emits_walk.
Qed.

Lemma OSVAgent_init_silent (config : OSVConfig) :
  emits silent (OSVAgent_init env config).
Proof.
  unfold OSVAgent_init, raise.
  destruct (negb _); [emits_walk|]. destruct (negb _); emits_walk.
Qed.

Lemma main_scan_silent (agent : OSVAgent) (args : Args) :
  emits silent (main_scan env agent args).
Proof.
  unfold main_scan, raise.
  repeat match goal with
         | |- emits _ (if ?b then _ else _) => destruct b
         end; emits_walk;
    auto using get_vulnerability_details_silent, scan_package_silent,
      parse_packages_from_args_silent, parse_packages_from_file_silent,
      scan_packages_batch_silent.
Qed.

End SilentSteps.

(** ** Failed scans and the exit code *)

Lemma empty_lists_below_every_threshold (r : VulnerabilityInfo) :
  critical_vulnerabilities r = [] -> high_vulnerabilities r = [] ->
  medium_vulnerabilities r = [] ->
  below_every_threshold (model_dump r).
Proof.
  intros Hc Hh Hm i.
  destruct (check_single_result_threshold (model_dump r) i severity_levels)
    eqn:E; [|reflexivity].
  apply check_single_true_iff in E as (k & v & _ & Hlt & Hget & Hv).
  simpl in Hlt.
  destruct k as [|[|[|[|k]]]]; try lia; cbn in Hget;
    try discriminate; injection Hget as <-;
    rewrite ?Hc, ?Hh, ?Hm in Hv; discriminate.
Qed.

Lemma details_below_every_threshold (id details : pyval) :
  below_every_threshold [("vulnerability_id", id); ("details", details)].
Proof.
  intros i.
  destruct (check_single_result_threshold _ i severity_levels) eqn:E;
    [|reflexivity].
  apply check_single_true_iff in E as (k & v & _ & Hlt & Hget & _).
  simpl in Hlt.
  destruct k as [|[|[|[|k]]]]; try lia; cbn in Hget; discriminate.
Qed.

Lemma below_threshold_policy (out : output) (fail_on : bool) (s : severity)
    (w : World) :
  Forall below_every_threshold (results_of out) ->
  fail_on_vulnerabilities fail_on out (severity_name s) w = (Ret tt, w).
Proof.
  intros Hquiet. destruct fail_on; [|reflexivity].
  assert (Hj : exists j, list_index (severity_name s) severity_levels = Some j)
    by (destruct s; eexists; reflexivity).
  destruct Hj as [j Hj].
  rewrite (fail_on_vulnerabilities_run out _ _ w
             (has_vulnerabilities_run out _ j Hj)).
  assert (E : existsb
                (fun result =>
                   check_single_result_threshold result j severity_levels)
                (results_of out) = false).
  { induction Hquiet as [|d l Hd _ IH]; [reflexivity|].
    cbn [existsb]. now rewrite (Hd j), IH. }
  now rewrite E.
Qed.

Lemma main_write_cases (env : Env) (args : Args) (out : output) (w : World) :
  (exists e, main_write env args out w = (Raise e, w))
  \/ (exists evs,
        main_write env args out w = (Ret tt, (w ++ evs)%list)
        /\ existsb trips_policy evs = false).
Proof.
  unfold main_write. destruct (opt_truthy (arg_output_file args)).
  - destruct (file_write env _) as [msg|]; [left; eexists; reflexivity|].
    right. eexists [_; _]. split.
    + unfold bind, emit. now rewrite <- app_assoc.
    + reflexivity.
  - right. eexists [_]. split; reflexivity.
Qed.

Section AllFail.
Variable env : Env.
Hypothesis Hfail : all_scans_fail env.

Lemma failed_scan_lists (self : OSVAgent) (n e v : pyval) (w w' : World)
    (r : VulnerabilityInfo) :
  scan_package env self n e v w = (Ret r, w') ->
  critical_vulnerabilities r = [] /\ high_vulnerabilities r = []
  /\ medium_vulnerabilities r = [].
Proof.
  unfold scan_package, bind, agent_run, lift.
  destruct (Hfail w ("Scan " ++ py_str env n ++ " version " ++ py_str env v
                     ++ " from " ++ py_str env e
                     ++ " ecosystem for vulnerabilities")) as [msg ->].
  unfold VulnerabilityInfo_new.
  destruct n, e, v; try discriminate. intros [= <- _]. now repeat split.
Qed.

Lemma failed_scan_below (self : OSVAgent) (n e v : pyval) (w w' : World)
    (r : VulnerabilityInfo) :
  scan_package env self n e v w = (Ret r, w') ->
  below_every_threshold (model_dump r).
Proof.
  intros H. apply failed_scan_lists in H as (Hc & Hh & Hm).
  now apply empty_lists_below_every_threshold.
Qed.

Lemma failed_loop_below (self : OSVAgent) (pkgs : list pyval) :
  forall results w rs w',
    Forall below_every_threshold (map model_dump results) ->
    scan_packages_loop env self pkgs results w = (Ret rs, w') ->
    Forall below_every_threshold (map model_dump rs).
Proof.
  induction pkgs as [|pkg rest IH]; intros results w rs w' Hacc; simpl.
  - now intros [= <- _].
  - unfold bind, lift.
    destruct (py_getitem pkg "package_name") as [n|?|?]; try discriminate.
    destruct (py_getitem pkg "ecosystem") as [e|?|?]; try discriminate.
    destruct (py_getitem pkg "version") as [v|?|?]; try discriminate.
    destruct (scan_package env self n e v w) as [[r|?|?] w1] eqn:Hscan;
      try discriminate.
    apply IH. rewrite map_app. apply Forall_app. split; [exact Hacc|].
    constructor; [|constructor]. eapply failed_scan_below, Hscan.
Qed.

Lemma failed_batch_below (self : OSVAgent) (packages : pyval) (w w' : World)
    (rs : list VulnerabilityInfo) :
  scan_packages_batch env self packages w = (Ret rs, w') ->
  Forall below_every_threshold (map model_dump rs).
Proof.
  unfold scan_packages_batch, bind, lift.
  destruct (py_iter packages) as [pkgs|?|?]; try discriminate.
  apply failed_loop_below. constructor.
Qed.

Lemma failed_main_scan_below (agent : OSVAgent) (args : Args) (w w' : World)
    (out : output) :
  main_scan env agent args w = (Ret out, w') ->
  Forall below_every_threshold (results_of out).
Proof.
  unfold main_scan.
  destruct (opt_truthy (arg_vulnerability_id args)).
  { unfold bind, ret.
    destruct (get_vulnerability_details env agent _ w) as [[d|?|?] w1];
      try discriminate.
    intros [= <- _]. constructor; [|constructor].
    apply details_below_every_threshold. }
  destruct (opt_truthy (arg_package args)).
  { unfold bind, ret.
    destruct (scan_package env agent _ _ _ w) as [[r|?|?] w1] eqn:Hscan;
      try discriminate.
    intros [= <- _]. constructor; [|constructor].
    eapply failed_scan_below, Hscan. }
  destruct (opt_truthy (arg_packages args)).
  { unfold bind, ret.
    destruct (parse_packages_from_args _ w) as [[pk|?|?] w1]; try discriminate.
    destruct (scan_packages_batch env agent pk w1) as [[rs|?|?] w2] eqn:Hb;
      try discriminate.
    intros [= <- _]. eapply failed_batch_below, Hb. }
  destruct (opt_truthy (arg_packages_file args)).
  { unfold bind, ret.
    destruct (parse_packages_from_file env _ w) as [[pk|?|?] w1];
      try discriminate.
    destruct (scan_packages_batch env agent pk w1) as [[rs|?|?] w2] eqn:Hb;
      try discriminate.
    intros [= <- _]. eapply failed_batch_below, Hb. }
  discriminate.
Qed.

End AllFail.

(** Closes a case of [main] that stops before the output is delivered:
    the events [evs] it added are all silent or error messages. *)
Ltac stops_undelivered evs :=
  exists evs; rewrite ?app_assoc, ?existsb_app;
  repeat match goal with
         | H : existsb _ _ = false |- _ => rewrite H
         end;
  repeat split; discriminate.

(** C9. When every run of the agent raises: [scan_package] returns a
    record whose three severity lists are empty, on whose dump
    [check_single_result_threshold] is false at every threshold index; on
    every output the scans of [main] produce, the exit-code policy returns
    without leaving, flag set or not; and in a run of [main] the message
    of the policy is never printed, and a run that delivers its output
    returns normally, with exit code 0. *)
Theorem failed_scans_never_trip_policy (env : Env) :
  all_scans_fail env ->
  (forall self name eco ver w,
      exists r w',
        scan_package env self (PStr name) (PStr eco) (PStr ver) w = (Ret r, w')
        /\ critical_vulnerabilities r = []
        /\ high_vulnerabilities r = []
        /\ medium_vulnerabilities r = []
        /\ forall i,
             check_single_result_threshold (model_dump r) i severity_levels
             = false)
  /\ (forall agent args w out w',
        main_scan env agent args w = (Ret out, w') ->
        forall fail_on threshold w2,
          fail_on_vulnerabilities fail_on out (severity_name threshold) w2
          = (Ret tt, w2))
  /\ (forall args w,
        exists evs,
          snd (main env args w) = (w ++ evs)%list
          /\ existsb trips_policy evs = false
          /\ (existsb delivers_output evs = true ->
              fst (main env args w) = Ret tt
              /\ exit_code (fst (main env args w)) = 0%Z)).
Proof.
  intros Hfail. split; [|split].
  - intros self name eco ver w.
    destruct (scan_package env self (PStr name) (PStr eco) (PStr ver) w)
      as [r0 w'] eqn:Hscan.
    assert (Hret : exists r, r0 = Ret r).
    { rewrite scan_package_run in Hscan. cbv zeta in Hscan.
      injection Hscan as <- _. destruct (agent_reply env w _); eauto. }
    destruct Hret as [r ->]. exists r, w'. split; [reflexivity|].
    destruct (failed_scan_lists env Hfail _ _ _ _ _ _ _ Hscan) as (Hc & Hh & Hm).
    repeat split; auto. now apply empty_lists_below_every_threshold.
  - intros agent args w out w' Hscan fail_on threshold w2.
    apply below_threshold_policy.
    exact (failed_main_scan_below env Hfail _ _ _ _ _ Hscan).
  - intros args w. rewrite main_steps.
    destruct (negb _).
    { stops_undelivered [Stderr mode_error]. }
    cbv zeta.
    destruct (OSVAgent_init_silent env
                {| osv_server_url := arg_osv_server args;
                   anthropic_api_key := arg_anthropic_api_key args |} w)
      as (e1 & Hw1 & Hs1).
    destruct (silent_history e1 Hs1) as [Hd1 Ht1].
    destruct (OSVAgent_init env _ w) as [[agent|e|c] w1];
      simpl in Hw1; subst w1.
    2:{ stops_undelivered (e1 ++ [StderrExn "Error: " e])%list. }
    2:{ stops_undelivered e1. }
    destruct (main_scan_silent env agent args (w ++ e1)%list)
      as (e2 & Hw2 & Hs2).
    destruct (silent_history e2 Hs2) as [Hd2 Ht2].
    destruct (main_scan env agent args (w ++ e1)%list) as [[out|e|c] w2]
      eqn:Hscan; simpl in Hw2; subst w2.
    2:{ stops_undelivered (e1 ++ e2 ++ [StderrExn "Error: " e])%list. }
    2:{ stops_undelivered (e1 ++ e2)%list. }
    pose proof (failed_main_scan_below env Hfail _ _ _ _ _ Hscan) as Hbelow.
    destruct (main_write_cases env args out ((w ++ e1) ++ e2)%list)
      as [[e Hwrite]|(e3 & Hwrite & Ht3)]; rewrite Hwrite.
    + stops_undelivered (e1 ++ e2 ++ [StderrExn "Error: " e])%list.
    + rewrite (below_threshold_policy out _ _ _ Hbelow).
      exists (e1 ++ e2 ++ e3)%list.
      rewrite !app_assoc, !existsb_app, Ht1, Ht2, Ht3. now repeat split.
Qed.

Lemma failed_scans_never_trip_policy_witness :
  main Sample.failing_env Sample.single_args [] =
  (Ret tt,
   [ AgentConstructed (MCPServerSSE "http://localhost:8080/sse");
     AgentRun (MCPServerSSE "http://localhost:8080/sse")
       "Scan requests version 2.25.0 from PyPI ecosystem for vulnerabilities";
     StdoutRendered
       (TextReport
          (OutDict
             (model_dump
                {| package_name := "requests"; ecosystem := "PyPI";
                   version := "2.25.0";
                   vulnerabilities_found := 0;
                   critical_vulnerabilities := [];
                   high_vulnerabilities := [];
                   medium_vulnerabilities := [];
                   recommendations :=
                     ["Error scanning package: connection refused"];
                   summary :=
                     "Failed to scan requests@2.25.0: connection refused" |}))
          "medium") ])
  /\ exit_code (fst (main Sample.failing_env Sample.single_args [])) = 0%Z.
Proof.
  assert (Hfail : all_scans_fail Sample.failing_env)
    by (intros w q; now exists "connection refused").
  destruct (failed_scans_never_trip_policy Sample.failing_env Hfail)
    as (_ & _ & Hmain).
  destruct (Hmain Sample.single_args []) as (evs & Hevs & _ & Hexit).
  split; [reflexivity|]. apply Hexit.
  simpl app in Hevs. rewrite <- Hevs. reflexivity.
Defined.

(** ** Loading package lists *)

Lemma parse_entries_spec (entries : list string) :
  forall packages,
    if forallb entry_ok entries then
      parse_entries entries packages
      = Ret (packages ++ map (fun e => package_entry (entry_parts e)) entries)%list
    else
      exists bad,
        find (fun e => negb (entry_ok e)) entries = Some bad
        /\ parse_entries entries packages
           = Raise (ValueError
                      ("Invalid package format: " ++ bad
                       ++ ". Expected format: package:ecosystem:version")).
Proof.
  induction entries as [|pkg_str rest IH]; intros packages.
  - cbn. now rewrite app_nil_r.
  - cbn [forallb find parse_entries map]. fold (entry_parts pkg_str).
    fold (entry_ok pkg_str). destruct (entry_ok pkg_str); cbn [negb andb].
    + specialize (IH (packages ++ [package_entry (entry_parts pkg_str)])%list).
      destruct (forallb entry_ok rest).
      * now rewrite IH, <- app_assoc.
      * exact IH.
    + eexists. split; reflexivity.
Qed.

Lemma all_keys_in_spec (keys : list string) (pkg : pyval) :
  if forallb
       (fun key => match py_in key pkg with Ret true => true | _ => false end)
       keys
  then all_keys_in keys pkg = Ret true
  else all_keys_in keys pkg = Ret false
       \/ exists e, all_keys_in keys pkg = Raise e.
Proof.
  induction keys as [|key keys IH]; cbn [forallb all_keys_in]; [reflexivity|].
  destruct (py_in key pkg) as [[|]|e|c] eqn:E; cbn [andb].
  - exact IH.
  - now left.
  - right. now exists e.
  - destruct pkg; discriminate E.
Qed.

Lemma validate_packages_spec (pkgs : list pyval) :
  if forallb has_required_keys pkgs then validate_packages pkgs = Ret tt
  else exists e, validate_packages pkgs = Raise e.
Proof.
  induction pkgs as [|pkg rest IH]; cbn [forallb validate_packages];
    [reflexivity|].
  pose proof (all_keys_in_spec required_keys pkg) as Hpkg.
  fold (has_required_keys pkg) in Hpkg.
  destruct (has_required_keys pkg); cbn [andb].
  - rewrite Hpkg. exact IH.
  - destruct Hpkg as [->|[e ->]]; eexists; reflexivity.
Qed.

Lemma parse_packages_from_args_run (packages_str : string) (w : World) :
  if forallb entry_ok (PyStr.split "," packages_str) then
    parse_packages_from_args packages_str w
    = (Ret (PList (map (fun e => package_entry (entry_parts e))
                     (PyStr.split "," packages_str))), w)
  else
    exists bad,
      find (fun e => negb (entry_ok e)) (PyStr.split "," packages_str)
      = Some bad
      /\ parse_packages_from_args packages_str w
         = (SysExit 1%Z,
            (w ++ [StderrExn "Error parsing packages: "
                     (ValueError
                        ("Invalid package format: " ++ bad
                         ++ ". Expected format: package:ecosystem:version"))])%list).
Proof.
  pose proof (parse_entries_spec (PyStr.split "," packages_str) []) as H.
  unfold parse_packages_from_args, try_except, bind, lift.
  destruct (forallb entry_ok _).
  - now rewrite H.
  - destruct H as (bad & Hfind & ->). exists bad. now split.
Qed.

Lemma parse_packages_from_file_run (env : Env) (file_path : string)
    (w : World) :
  if file_accepted env file_path then
    exists packages,
      json_load env file_path = Loaded packages
      /\ parse_packages_from_file env file_path w
         = (Ret packages, (w ++ [JsonLoad file_path])%list)
  else
    exists e,
      parse_packages_from_file env file_path w
      = (SysExit 1%Z,
         (w ++ [JsonLoad file_path;
                StderrExn "Error parsing packages file: " e])%list).
Proof.
  unfold file_accepted, parse_packages_from_file, try_except, bind, emit,
    raise, sys_exit, ret, lift.
  destruct (json_load env file_path) as [packages|msg].
  - destruct (py_iter packages) as [pkgs|e|c] eqn:Hiter.
    + pose proof (validate_packages_spec pkgs) as Hv.
      destruct (forallb has_required_keys pkgs).
      * rewrite Hv. now exists packages.
      * destruct Hv as [e ->]. exists e. now rewrite <- app_assoc.
    + exists e. now rewrite <- app_assoc.
    + destruct packages; discriminate Hiter.
  - eexists. now rewrite <- app_assoc.
Qed.

(** C6. Loading a package list checks its shape. An inline string is
    accepted exactly when every comma-separated entry, stripped and split
    on [:], has three parts, and these become [package_name], [ecosystem]
    and [version] in that order. A file is accepted exactly when it loads,
    can be iterated and every element contains the three required keys (a
    dictionary element has them as keys; for an element that is a string
    [in] looks for substrings). Everything else prints an
    error on stderr and leaves with code 1. Three parts are what an entry
    with exactly two [:] has. *)
Theorem package_lists_validated (env : Env) (w : World) :
  (forall packages_str,
      if forallb entry_ok (PyStr.split "," packages_str) then
        parse_packages_from_args packages_str w
        = (Ret (PList (map (fun e => package_entry (entry_parts e))
                         (PyStr.split "," packages_str))), w)
      else
        exists e,
          parse_packages_from_args packages_str w
          = (SysExit 1%Z,
             (w ++ [StderrExn "Error parsing packages: " e])%list))
  /\ (forall pkg_str,
        entry_ok pkg_str = true
        <-> exists n e v,
              PyStr.split ":" (PyStr.strip pkg_str) = [n; e; v]
              /\ package_entry (entry_parts pkg_str)
                 = PDict [ ("package_name", PStr n); ("ecosystem", PStr e);
                           ("version", PStr v) ])
  /\ (forall file_path,
        if file_accepted env file_path then
          exists packages,
            json_load env file_path = Loaded packages
            /\ parse_packages_from_file env file_path w
               = (Ret packages, (w ++ [JsonLoad file_path])%list)
        else
          exists e,
            parse_packages_from_file env file_path w
            = (SysExit 1%Z,
               (w ++ [JsonLoad file_path;
                      StderrExn "Error parsing packages file: " e])%list))
  /\ (forall d,
        has_required_keys (PDict d)
        = dict_has "package_name" d && dict_has "ecosystem" d
          && dict_has "version" d)
  /\ (forall s,
        has_required_keys (PStr s)
        = PyStr.contains s "package_name" && PyStr.contains s "ecosystem"
          && PyStr.contains s "version")
  /\ (forall pkg_str,
        entry_ok pkg_str = true
        <-> PyStr.count ":" (PyStr.strip pkg_str) = 2).
Proof.
  split; [|split; [|split; [|split; [|split]]]].
  - intros packages_str.
    pose proof (parse_packages_from_args_run packages_str w) as H.
    destruct (forallb entry_ok _); [exact H|].
    destruct H as (bad & _ & H). eexists. exact H.
  - intros pkg_str. unfold entry_ok, entry_parts. rewrite Nat.eqb_eq.
    destruct (PyStr.split ":" (PyStr.strip pkg_str))
      as [|n [|e [|v [|x l]]]]; simpl; split; try discriminate;
      try (intros (? & ? & ? & H & _); discriminate H);
      try (intros _; reflexivity).
    intros _. exists n, e, v. now split.
  - intros file_path. apply parse_packages_from_file_run.
  - intros d. unfold has_required_keys, required_keys. cbn [forallb py_in].
    destruct (dict_has "package_name" d), (dict_has "ecosystem" d),
      (dict_has "version" d); reflexivity.
  - intros s. unfold has_required_keys, required_keys. cbn [forallb py_in].
    destruct (PyStr.contains s "package_name"), (PyStr.contains s "ecosystem"),
      (PyStr.contains s "version"); reflexivity.
  - intros pkg_str. unfold entry_ok, entry_parts.
    rewrite PyStrFacts.length_split, Nat.eqb_eq. lia.
Qed.

(** ** Worked runs *)

Example split_commas :
  PyStr.split "," "requests:PyPI:2.25.0, lodash:npm:4.17.20"
  = ["requests:PyPI:2.25.0"; " lodash:npm:4.17.20"].
Proof. reflexivity. Qed.

Example split_empty : PyStr.split "," "" = [""].
Proof. reflexivity. Qed.

Example split_trailing : PyStr.split ":" "a::" = ["a"; ""; ""].
Proof. reflexivity. Qed.

Example strip_blanks : PyStr.strip "  lodash:npm : 4.17.20 " = "lodash:npm : 4.17.20".
Proof. reflexivity. Qed.

Example rstrip_slashes : PyStr.rstrip_char "/" "http://host/mcp//" = "http://host/mcp".
Proof. reflexivity. Qed.

Example inline_two_packages :
  parse_packages_from_args "requests:PyPI:2.25.0, lodash:npm:4.17.20" []
  = (Ret (PList Sample.two_packages), []).
Proof. reflexivity. Qed.

Example inline_two_parts :
  parse_packages_from_args "requests:PyPI" []
  = (SysExit 1%Z,
     [StderrExn "Error parsing packages: "
        (ValueError
           "Invalid package format: requests:PyPI. Expected format: package:ecosystem:version")]).
Proof. reflexivity. Qed.

(** For an element that is a string, [in] is the substring test. *)
Example file_with_string_element :
  parse_packages_from_file Sample.string_element_env "packages.json" []
  = (Ret (PList [PStr "package_name ecosystem version"]),
     [JsonLoad "packages.json"]).
Proof. reflexivity. Qed.

Example answered_scan_trips_policy :
  fst (main Sample.answering_env Sample.single_args []) = SysExit 1%Z.
Proof. reflexivity. Qed.

(** [--package] with another mode: the single-package branch is taken
    with [None] for the ecosystem and the version, and when the agent
    raises, the error record fails its validation. *)
Example stray_package_run :
  main Sample.failing_env Sample.stray_package_args []
  = (SysExit 1%Z,
     [ AgentConstructed (MCPServerSSE "http://localhost:8080/sse");
       AgentRun (MCPServerSSE "http://localhost:8080/sse")
         "Scan requests version None from None ecosystem for vulnerabilities";
       StderrExn "Error: " ValidationError ]).
Proof. reflexivity. Qed.

(** * Further properties *)

(** ** Thresholds *)

(** X1. Lowering the threshold never hides a finding: an output that is
    above a threshold is above every threshold that comes earlier in
    [severity_levels]. *)
Theorem lower_threshold_keeps_findings (out : output) (t1 t2 : string)
    (i1 i2 : nat) :
  list_index t1 severity_levels = Some i1 ->
  list_index t2 severity_levels = Some i2 ->
  i1 <= i2 ->
  has_vulnerabilities_above_threshold out t2 = Ret true ->
  has_vulnerabilities_above_threshold out t1 = Ret true.
Proof.
  intros H1 H2 Hle.
  rewrite (has_vulnerabilities_run out t1 i1 H1),
          (has_vulnerabilities_run out t2 i2 H2).
  intros [= Hex]. f_equal. apply existsb_exists.
  apply existsb_exists in Hex as (result & Hin & Hcheck).
  exists result. split; [exact Hin|].
  apply check_single_true_iff in Hcheck as (k & v & Hk & Hlt & Hget & Hv).
  apply check_single_true_iff. exists k, v. repeat split; auto. lia.
Qed.

Lemma lower_threshold_keeps_findings_witness :
  has_vulnerabilities_above_threshold
    (OutDict (model_dump Sample.requests_report)) "low" = Ret true.
Proof.
  apply (lower_threshold_keeps_findings _ "low" "high" 0 2);
    [reflexivity | reflexivity | lia | reflexivity].
Defined.

(** ** Exit codes *)

Section ExitsWith1.

Lemma exits_ret {A} (a : A) : exits_with_1 (ret a).
Proof. intros w c w'. discriminate. Qed.

Lemma exits_raise {A} (e : exn) : exits_with_1 (@raise A e).
Proof. intros w c w'. discriminate. Qed.

Lemma exits_emit (ev : event) : exits_with_1 (emit ev).
Proof. intros w c w'. discriminate. Qed.

Lemma exits_sys_exit_1 {A} : exits_with_1 (@sys_exit A 1%Z).
Proof. intros w c w'. now intros [= <- _]. Qed.

Lemma exits_lift {A} (r : Res A) :
  (forall c, r = SysExit c -> c = 1%Z) -> exits_with_1 (lift r).
Proof. intros H w c w'. unfold lift. intros [= -> _]. now apply H. Qed.

Lemma exits_bind {A B} (m : M A) (k : A -> M B) :
  exits_with_1 m -> (forall a, exits_with_1 (k a)) -> exits_with_1 (bind m k).
Proof.
  intros Hm Hk w c w'. unfold bind.
  destruct (m w) as [[a|e|c0] w1] eqn:E.
  - apply Hk.
  - discriminate.
  - intros [= <- _]. exact (Hm _ _ _ E).
Qed.

Lemma exits_try_except {A} (m : M A) (handler : exn -> M A) :
  exits_with_1 m -> (forall e, exits_with_1 (handler e)) ->
  exits_with_1 (try_except m handler).
Proof.
  intros Hm Hh w c w'. unfold try_except.
  destruct (m w) as [[a|e|c0] w1] eqn:E.
  - discriminate.
  - apply Hh.
  - intros [= <- _]. exact (Hm _ _ _ E).
Qed.

Lemma exits_agent_run (env : Env) (self : OSVAgent) (query : string) :
  exits_with_1 (agent_run env self query).
Proof. intros w c w'. discriminate. Qed.

End ExitsWith1.

Lemma py_getitem_no_exit (v : pyval) (key : string) (c : Z) :
  py_getitem v key <> SysExit c.
Proof.
  destruct v; simpl; try discriminate. destruct (dict_get key d); discriminate.
Qed.

Lemma py_iter_no_exit (v : pyval) (c : Z) : py_iter v <> SysExit c.
Proof. destruct v; discriminate. Qed.

Lemma validate_packages_no_exit (pkgs : list pyval) (c : Z) :
  validate_packages pkgs <> SysExit c.
Proof.
  pose proof (validate_packages_spec pkgs) as H.
  destruct (forallb has_required_keys pkgs); [now rewrite H|].
  destruct H as [e ->]. discriminate.
Qed.

Lemma parse_entries_no_exit (entries : list string) (packages : list pyval)
    (c : Z) :
  parse_entries entries packages <> SysExit c.
Proof.
  pose proof (parse_entries_spec entries packages) as H.
  destruct (forallb entry_ok entries); [now rewrite H|].
  destruct H as (bad & _ & ->). discriminate.
Qed.

(** Walks down a computation, as [emits_walk] does, for [exits_with_1]. *)
Ltac exits_walk :=
  repeat lazymatch goal with
    | |- exits_with_1 (ret _) => apply exits_ret
    | |- exits_with_1 (raise _) => apply exits_raise
    | |- exits_with_1 (emit _) => apply exits_emit
    | |- exits_with_1 (sys_exit 1%Z) => apply exits_sys_exit_1
    | |- exits_with_1 (agent_run _ _ _) => apply exits_agent_run
    | |- exits_with_1 (bind _ _) => apply exits_bind; [|intros ?]
    | |- exits_with_1 (try_except _ _) => apply exits_try_except; [|intros ?]
    | |- exits_with_1 (lift (py_getitem _ _)) =>
        apply exits_lift; intros ? ?; exfalso; eapply py_getitem_no_exit;
        eassumption
    | |- exits_with_1 (lift (py_iter _)) =>
        apply exits_lift; intros ? ?; exfalso; eapply py_iter_no_exit;
        eassumption
    | |- exits_with_1 (lift (validate_packages _)) =>
        apply exits_lift; intros ? ?; exfalso; eapply validate_packages_no_exit;
        eassumption
    | |- exits_with_1 (lift (parse_entries _ _)) =>
        apply exits_lift; intros ? ?; exfalso; eapply parse_entries_no_exit;
        eassumption
    end.

Section ExitSteps.
Variable env : Env.

Lemma scan_package_exits (self : OSVAgent) (n e v : pyval) :
  exits_with_1 (scan_package env self n e v).
Proof.
  unfold scan_package. exits_walk. destruct a; exits_walk.
  apply exits_lift. intros c. unfold VulnerabilityInfo_new.
  destruct n, e, v; discriminate.
Qed.

Lemma scan_packages_loop_exits (self : OSVAgent) (pkgs : list pyval) :
  forall results, exits_with_1 (scan_packages_loop env self pkgs results).
Proof.
  induction pkgs as [|pkg rest IH]; intros results; simpl; exits_walk.
  - apply scan_package_exits.
  - apply IH.
Qed.

Lemma scan_packages_batch_exits (self : OSVAgent) (packages : pyval) :
  exits_with_1 (scan_packages_batch env self packages).
Proof.
  unfold scan_packages_batch. exits_walk. apply scan_packages_loop_exits.
Qed.

Lemma main_scan_exits (agent : OSVAgent) (args : Args) :
  exits_with_1 (main_scan env agent args).
Proof.
  unfold main_scan, get_vulnerability_details, parse_packages_from_args,
    parse_packages_from_file.
  repeat match goal with
         | |- exits_with_1 (if ?b then _ else _) => destruct b
         end; exits_walk;
    try (destruct a; exits_walk);
    auto using scan_package_exits, scan_packages_batch_exits.
  destruct (json_load env _); exits_walk.
Qed.

End ExitSteps.

(** X2. Whatever the environment and the command line, a run of [main]
    ends with exit code 0 or 1. *)
Theorem main_exit_code_0_or_1 (env : Env) (args : Args) (w : World) :
  exit_code (fst (main env args w)) = 0%Z
  \/ exit_code (fst (main env args w)) = 1%Z.
Proof.
  rewrite main_steps. destruct (negb _); [now right|]. cbv zeta.
  destruct (OSVAgent_init env _ w) as [[agent|e|c] w1] eqn:Hinit;
    [|now right|].
  2:{ exfalso. revert Hinit. unfold OSVAgent_init.
      destruct (negb _); [discriminate|].
      destruct (negb _); discriminate. }
  destruct (main_scan env agent args w1) as [[out|e|c] w2] eqn:Hscan;
    [|now right|].
  2:{ right. simpl. exact (main_scan_exits env agent args _ _ _ Hscan). }
  destruct (main_write_cases env args out w2) as [[e ->]|(evs & -> & _)];
    [now right|].
  assert (H : exists j, list_index (severity_name (arg_severity_threshold args))
                          severity_levels = Some j)
    by (destruct (arg_severity_threshold args); eexists; reflexivity).
  destruct H as [j Hj].
  destruct (arg_fail_on_vulnerabilities args); [|now left].
  rewrite (fail_on_vulnerabilities_run out _ _ _
             (has_vulnerabilities_run out _ j Hj)).
  destruct (existsb _ _); simpl; auto.
Qed.

(** ** Runs of main that stop early *)

Lemma main_after_init (env : Env) (args : Args) (w : World) (server : transport)
    (agent : OSVAgent) :
  py_sum (scan_modes args) = 1 ->
  OSVAgent_init env
    {| osv_server_url := arg_osv_server args;
       anthropic_api_key := arg_anthropic_api_key args |} w
  = (Ret agent, (w ++ [AgentConstructed server])%list) ->
  main env args w
  = match main_scan env agent args (w ++ [AgentConstructed server])%list with
    | (Ret out, w2) =>
        match main_write env args out w2 with
        | (Ret _, w3) =>
            match fail_on_vulnerabilities
                    (arg_fail_on_vulnerabilities args) out
                    (severity_name (arg_severity_threshold args)) w3 with
            | (Raise e, w4) =>
                (SysExit 1%Z, (w4 ++ [StderrExn "Error: " e])%list)
            | r => r
            end
        | (Raise e, w3) => (SysExit 1%Z, (w3 ++ [StderrExn "Error: " e])%list)
        | (SysExit c, w3) => (SysExit c, w3)
        end
    | (Raise e, w2) => (SysExit 1%Z, (w2 ++ [StderrExn "Error: " e])%list)
    | (SysExit c, w2) => (SysExit c, w2)
    end.
Proof.
  intros Hcount Hinit. rewrite main_steps, Hcount. cbn [Nat.eqb negb]. cbv zeta.
  now rewrite Hinit.
Qed.

(** X3. Without a key, neither on the command line nor in the environment,
    a run that passes the mode check prints the [ValueError] of the
    constructor and exits 1; that message is its only event, so no package
    list is parsed, no file is opened and the agent is never run. *)
Theorem main_without_key (env : Env) (args : Args) (w : World) :
  py_sum (scan_modes args) = 1 ->
  opt_truthy (arg_anthropic_api_key args) = false ->
  opt_truthy (getenv_ANTHROPIC_API_KEY env) = false ->
  main env args w
  = (SysExit 1%Z,
     (w ++ [StderrExn "Error: "
              (ValueError
                 "ANTHROPIC_API_KEY must be provided via config or environment variable")])%list).
Proof.
  intros Hcount Ha He. rewrite main_steps, Hcount. cbn [Nat.eqb negb]. cbv zeta.
  unfold OSVAgent_init. cbn [anthropic_api_key].
  now rewrite py_or_truthy, Ha, He.
Qed.

Lemma main_without_key_witness :
  main Cases.keyless_env Cases.malformed_packages_args []
  = (SysExit 1%Z,
     [StderrExn "Error: "
        (ValueError
           "ANTHROPIC_API_KEY must be provided via config or environment variable")]).
Proof.
  exact (main_without_key Cases.keyless_env Cases.malformed_packages_args []
           eq_refl eq_refl eq_refl).
Defined.

(** X19. A key given with [--anthropic-api-key] alone does not start a
    scan: it passes the guard of the constructor, but the model is built
    without it and its provider finds none in the environment. The run
    prints that error and exits 1; the message is its only event, so no
    agent is constructed or run and nothing is delivered. *)
Theorem main_command_line_key_only (env : Env) (args : Args) (w : World) :
  py_sum (scan_modes args) = 1 ->
  opt_truthy (arg_anthropic_api_key args) = true ->
  opt_truthy (getenv_ANTHROPIC_API_KEY env) = false ->
  main env args w
  = (SysExit 1%Z, (w ++ [StderrExn "Error: " UserError])%list).
Proof.
  intros Hcount Ha He. rewrite main_steps, Hcount. cbn [Nat.eqb negb]. cbv zeta.
  now rewrite (init_with_config_key_only env
                 {| osv_server_url := arg_osv_server args;
                    anthropic_api_key := arg_anthropic_api_key args |}
                 w Ha He).
Qed.

Lemma main_command_line_key_only_witness :
  main Cases.keyless_env Cases.command_line_key_args []
  = (SysExit 1%Z, [StderrExn "Error: " UserError]).
Proof.
  exact (main_command_line_key_only Cases.keyless_env
           Cases.command_line_key_args [] eq_refl eq_refl eq_refl).
Defined.

(** X4. With a key in the environment, a malformed [--packages] text is
    found only after the agent has been constructed: the run adds the
    construction and the parse error that names the first bad entry, exits
    1 through [sys.exit] (not through the handler of [main]), never runs
    the agent and delivers nothing. *)
Theorem main_malformed_packages (env : Env) (args : Args) (w : World) :
  py_sum (scan_modes args) = 1 ->
  opt_truthy (getenv_ANTHROPIC_API_KEY env) = true ->
  opt_truthy (arg_vulnerability_id args) = false ->
  opt_truthy (arg_package args) = false ->
  opt_truthy (arg_packages args) = true ->
  forallb entry_ok (PyStr.split "," (unwrap (arg_packages args))) = false ->
  exists server bad,
    find (fun e => negb (entry_ok e))
      (PyStr.split "," (unwrap (arg_packages args))) = Some bad
    /\ main env args w
       = (SysExit 1%Z,
          (w ++ [ AgentConstructed server;
                  StderrExn "Error parsing packages: "
                    (ValueError
                       ("Invalid package format: " ++ bad
                        ++ ". Expected format: package:ecosystem:version")) ])%list).
Proof.
  intros Hcount Hkey Hvid Hpkg Hpkgs Hbad.
  destruct (init_with_key env
              {| osv_server_url := arg_osv_server args;
                 anthropic_api_key := arg_anthropic_api_key args |} w Hkey)
    as (server & Hinit & _).
  rewrite (main_after_init env args w server _ Hcount Hinit).
  unfold main_scan. rewrite Hvid, Hpkg, Hpkgs. unfold bind at 1.
  pose proof (parse_packages_from_args_run (unwrap (arg_packages args))
                (w ++ [AgentConstructed server])%list) as Hparse.
  rewrite Hbad in Hparse. destruct Hparse as (bad & Hfind & ->).
  exists server, bad. split; [exact Hfind|]. now rewrite <- app_assoc.
Qed.

Lemma main_malformed_packages_witness :
  exists server bad,
    find (fun e => negb (entry_ok e)) (PyStr.split "," "requests:PyPI")
    = Some bad
    /\ main Sample.answering_env Cases.malformed_packages_args []
       = (SysExit 1%Z,
          [ AgentConstructed server;
            StderrExn "Error parsing packages: "
              (ValueError
                 ("Invalid package format: " ++ bad
                  ++ ". Expected format: package:ecosystem:version")) ]).
Proof.
  exact (main_malformed_packages Sample.answering_env
           Cases.malformed_packages_args [] eq_refl eq_refl eq_refl eq_refl
           eq_refl eq_refl).
Defined.

(** X5. [--package] given without [--ecosystem], next to another mode:
    the single-package mode is not the one counted, yet its branch is the
    one that runs. The agent is asked once, about the package with the
    ecosystem [None]; its answer becomes the output, and when it raises,
    building the error record fails its validation. The other mode is
    not looked at. *)
Theorem stray_package_takes_single_scan (env : Env) (agent : OSVAgent)
    (args : Args) (w : World) (p : string) :
  opt_truthy (arg_vulnerability_id args) = false ->
  arg_package args = Some p -> p <> "" ->
  arg_ecosystem args = None ->
  nth 0 (scan_modes args) false = false
  /\ main_scan env agent args w
     = (match agent_reply env w
                ("Scan " ++ p ++ " version " ++ py_str env (of_opt (arg_version args))
                 ++ " from None ecosystem for vulnerabilities") with
        | AgentOutput out => Ret (OutDict (model_dump out))
        | AgentRaises _ => Raise ValidationError
        end,
        (w ++ [AgentRun (osv_server agent)
                 ("Scan " ++ p ++ " version "
                  ++ py_str env (of_opt (arg_version args))
                  ++ " from None ecosystem for vulnerabilities")])%list).
Proof.
  intros Hvid Hp Hne He. split.
  - unfold scan_modes. cbn [nth]. rewrite He. cbn [opt_truthy].
    now rewrite andb_false_r.
  - unfold main_scan. rewrite Hvid, Hp, He.
    assert (Ht : opt_truthy (Some p) = true) by (destruct p; [contradiction | reflexivity]).
    rewrite Ht. unfold bind, scan_package, agent_run, bind. cbn [of_opt py_str].
    destruct (agent_reply env w _); [reflexivity|].
    unfold lift, VulnerabilityInfo_new. reflexivity.
Qed.

Lemma stray_package_takes_single_scan_witness :
  main_scan Sample.failing_env Sample.default_agent Sample.stray_package_args []
  = (Raise ValidationError,
     [AgentRun (MCPServerSSE "http://localhost:8080/sse")
        "Scan requests version None from None ecosystem for vulnerabilities"]).
Proof.
  assert (Hne : "requests" <> "") by discriminate.
  exact (proj2 (stray_package_takes_single_scan Sample.failing_env
                  Sample.default_agent Sample.stray_package_args [] "requests"
                  eq_refl eq_refl Hne eq_refl)).
Defined.

Lemma main_scan_details (env : Env) (agent : OSVAgent) (args : Args)
    (w : World) (id : string) :
  arg_vulnerability_id args = Some id -> id <> "" ->
  exists details,
    main_scan env agent args w
    = (Ret (OutDict [ ("vulnerability_id", PStr id);
                      ("details", PStr details) ]),
       (w ++ [AgentRun (osv_server agent)
                ("Get detailed information about vulnerability " ++ id)])%list).
Proof.
  intros Hid Hne. unfold main_scan. rewrite Hid.
  assert (Ht : opt_truthy (Some id) = true)
    by (destruct id; [contradiction | reflexivity]).
  rewrite Ht. unfold get_vulnerability_details, bind, agent_run, ret.
  cbn [unwrap of_opt]. destruct (agent_reply env w _); eexists; reflexivity.
Qed.

(** With a writable destination [main_write] returns and delivers. *)
Lemma main_write_delivers (env : Env) (args : Args) (out : output) (w : World) :
  (opt_truthy (arg_output_file args) = true ->
   file_write env (unwrap (arg_output_file args)) = None) ->
  exists evs,
    main_write env args out w = (Ret tt, (w ++ evs)%list)
    /\ existsb uses_agent evs = false
    /\ existsb trips_policy evs = false
    /\ existsb delivers_output evs = true.
Proof.
  intros Hwrite. unfold main_write.
  destruct (opt_truthy (arg_output_file args)).
  - rewrite (Hwrite eq_refl). eexists [_; _]. split.
    + unfold bind, emit. now rewrite <- app_assoc.
    + repeat split.
  - eexists [_]. split; [reflexivity|]. repeat split.
Qed.

(** X6. In the vulnerability-id mode the exit-code policy never fires:
    with a key in the environment and a writable destination the run asks
    the agent once,
    for the details, delivers the output and returns normally (exit code
    0), whatever the agent answers, with or without
    [--fail-on-vulnerabilities] and at every threshold. *)
Theorem details_mode_exits_0 (env : Env) (args : Args) (w : World)
    (id : string) :
  arg_vulnerability_id args = Some id -> id <> "" ->
  py_sum (scan_modes args) = 1 ->
  opt_truthy (getenv_ANTHROPIC_API_KEY env) = true ->
  (opt_truthy (arg_output_file args) = true ->
   file_write env (unwrap (arg_output_file args)) = None) ->
  fst (main env args w) = Ret tt
  /\ exit_code (fst (main env args w)) = 0%Z
  /\ exists server evs,
       snd (main env args w)
       = (w ++ [ AgentConstructed server;
                 AgentRun server
                   ("Get detailed information about vulnerability " ++ id) ]
            ++ evs)%list
       /\ existsb uses_agent evs = false
       /\ existsb trips_policy evs = false
       /\ existsb delivers_output evs = true.
Proof.
  intros Hid Hne Hcount Hkey Hwrite.
  destruct (init_with_key env
              {| osv_server_url := arg_osv_server args;
                 anthropic_api_key := arg_anthropic_api_key args |} w Hkey)
    as (server & Hinit & _).
  rewrite (main_after_init env args w server _ Hcount Hinit).
  destruct (main_scan_details env
              {| config := {| osv_server_url := arg_osv_server args;
                              anthropic_api_key := arg_anthropic_api_key args |};
                 osv_server := server |} args
              (w ++ [AgentConstructed server])%list id Hid Hne)
    as (details & ->).
  cbn [osv_server].
  destruct (main_write_delivers env args
              (OutDict [("vulnerability_id", PStr id); ("details", PStr details)])
              ((w ++ [AgentConstructed server]) ++
               [AgentRun server
                  ("Get detailed information about vulnerability " ++ id)])%list
              Hwrite)
    as (evs & -> & Hu & Ht & Hd).
  rewrite below_threshold_policy
    by (repeat constructor; apply details_below_every_threshold).
  repeat split. exists server, evs. repeat split; auto.
  cbn [snd]. now rewrite <- !app_assoc.
Qed.

Lemma details_mode_exits_0_witness :
  fst (main Sample.answering_env Cases.details_args []) = Ret tt.
Proof.
  assert (Hne : "GHSA-9hjg-9r4m-mvj7" <> "") by discriminate.
  assert (Hw : opt_truthy (arg_output_file Cases.details_args) = true ->
               file_write Sample.answering_env
                 (unwrap (arg_output_file Cases.details_args)) = None)
    by reflexivity.
  exact (proj1 (details_mode_exits_0 Sample.answering_env Cases.details_args []
                  "GHSA-9hjg-9r4m-mvj7" eq_refl Hne eq_refl eq_refl Hw)).
Defined.

(** X7. With a key in the environment, a packages file that passes the
    validation although its first element is no dictionary (a string or a
    list that names the three keys) stops the batch at once: the agent is
    constructed, the file is loaded, the lookup [pkg['package_name']]
    raises, and [main] exits 1 without a single run of the agent and
    without output. *)
Theorem file_non_dict_element_stops_batch (env : Env) (args : Args) (w : World)
    (path : string) (first : pyval) (rest : list pyval) :
  py_sum (scan_modes args) = 1 ->
  opt_truthy (getenv_ANTHROPIC_API_KEY env) = true ->
  opt_truthy (arg_vulnerability_id args) = false ->
  opt_truthy (arg_package args) = false ->
  opt_truthy (arg_packages args) = false ->
  arg_packages_file args = Some path -> path <> "" ->
  json_load env path = Loaded (PList (first :: rest)) ->
  (forall d, first <> PDict d) ->
  file_accepted env path = true ->
  exists server,
    main env args w
    = (SysExit 1%Z,
       (w ++ [ AgentConstructed server; JsonLoad path;
               StderrExn "Error: " TypeError ])%list).
Proof.
  intros Hcount Hkey Hvid Hpkg Hpkgs Hfile Hne Hload Hnodict Hacc.
  destruct (init_with_key env
              {| osv_server_url := arg_osv_server args;
                 anthropic_api_key := arg_anthropic_api_key args |} w Hkey)
    as (server & Hinit & _).
  rewrite (main_after_init env args w server _ Hcount Hinit).
  exists server. unfold main_scan. rewrite Hvid, Hpkg, Hpkgs, Hfile.
  assert (Ht : opt_truthy (Some path) = true)
    by (destruct path; [contradiction | reflexivity]).
  rewrite Ht. cbn [unwrap]. unfold bind at 1.
  pose proof (parse_packages_from_file_run env path
                (w ++ [AgentConstructed server])%list) as Hparse.
  rewrite Hacc in Hparse. destruct Hparse as (packages & Hl & ->).
  rewrite Hload in Hl. injection Hl as <-.
  assert (Hget : py_getitem first "package_name" = Raise TypeError)
    by (destruct first; try reflexivity; now destruct (Hnodict d)).
  unfold bind, scan_packages_batch, bind, lift. cbn [py_iter scan_packages_loop].
  unfold bind, lift. rewrite Hget. now rewrite <- !app_assoc.
Qed.

Lemma file_non_dict_element_stops_batch_witness :
  exists server,
    main Sample.string_element_env Cases.file_args []
    = (SysExit 1%Z,
       [ AgentConstructed server; JsonLoad "packages.json";
         StderrExn "Error: " TypeError ]).
Proof.
  assert (Hne : "packages.json" <> "") by discriminate.
  assert (Hnd : forall d, PStr "package_name ecosystem version" <> PDict d)
    by discriminate.
  exact (file_non_dict_element_stops_batch Sample.string_element_env
           Cases.file_args [] "packages.json"
           (PStr "package_name ecosystem version")
           [] eq_refl eq_refl eq_refl eq_refl eq_refl eq_refl Hne eq_refl
           Hnd eq_refl).
Defined.

(** ** More on the batch scan *)

Section BatchTrace.
Variables (env : Env) (self : OSVAgent).

Lemma package_dict_query (pkg : pyval) :
  is_package_dict pkg -> exists q, entry_query env pkg = Some q.
Proof.
  intros (d & n & e & v & -> & Hn & He & Hv).
  unfold entry_query, py_getitem. rewrite Hn, He, Hv. eauto.
Qed.

Lemma scan_entry_package_dict (pkg : pyval) (q : string) (w : World) :
  is_package_dict pkg -> entry_query env pkg = Some q ->
  exists r,
    scan_entry env self pkg w
    = (Ret r, (w ++ [AgentRun (osv_server self) q])%list).
Proof.
  intros (d & n & e & v & -> & Hn & He & Hv).
  unfold entry_query, scan_entry, bind, lift, py_getitem.
  rewrite Hn, He, Hv. intros [= <-].
  rewrite scan_package_run. cbv zeta. cbn [py_str].
  destruct (agent_reply env w _); eexists; reflexivity.
Qed.

(** The history a run over package dictionaries leaves: one agent run
    per package, in order. *)
Lemma scan_each_in_order_trace (pkgs : list pyval) :
  Forall is_package_dict pkgs ->
  forall w, exists rs queries,
    Forall2 (fun pkg q => entry_query env pkg = Some q) pkgs queries
    /\ scan_each_in_order env self pkgs w
       = (Ret rs, (w ++ map (AgentRun (osv_server self)) queries)%list).
Proof.
  induction 1 as [|pkg rest Hpkg _ IH]; intros w.
  - exists [], []. split; [constructor|]. cbn. unfold ret. now rewrite app_nil_r.
  - destruct (package_dict_query pkg Hpkg) as [q Hq].
    destruct (scan_entry_package_dict pkg q w Hpkg Hq) as [r Hr].
    destruct (IH (w ++ [AgentRun (osv_server self) q])%list)
      as (rs & queries & Hall & Hrest).
    exists (r :: rs), (q :: queries). split; [now constructor|].
    cbn [scan_each_in_order map]. unfold bind. rewrite Hr, Hrest.
    unfold ret. now rewrite <- app_assoc.
Qed.

Lemma scan_entry_missing_key (d : pydict) (k : string) (w : World) :
  first_missing_key d = Some k ->
  scan_entry env self (PDict d) w = (Raise (KeyError k), w).
Proof.
  unfold first_missing_key, required_keys, scan_entry, bind, lift, py_getitem,
    dict_has. cbn [find].
  destruct (dict_get "package_name" d); cbn [negb]; [|now intros [= <-]].
  destruct (dict_get "ecosystem" d); cbn [negb]; [|now intros [= <-]].
  destruct (dict_get "version" d); cbn [negb]; [discriminate | now intros [= <-]].
Qed.

End BatchTrace.

(** X8. A batch over package dictionaries runs the agent exactly once per
    package, in the order of the list, each time on the query built from
    that package, whether the agent answers or raises on the packages
    before; nothing else is added to the history. *)
Theorem batch_runs_one_query_per_package (env : Env) (self : OSVAgent)
    (pkgs : list pyval) (w : World) :
  Forall is_package_dict pkgs ->
  exists queries,
    Forall2 (fun pkg q => entry_query env pkg = Some q) pkgs queries
    /\ snd (scan_packages_batch env self (PList pkgs) w)
       = (w ++ map (AgentRun (osv_server self)) queries)%list.
Proof.
  intros Hpkgs. rewrite scan_packages_batch_sequential.
  destruct (scan_each_in_order_trace env self pkgs Hpkgs w)
    as (rs & queries & Hall & ->).
  now exists queries.
Qed.

Lemma batch_runs_one_query_per_package_witness :
  exists queries,
    Forall2 (fun pkg q => entry_query Sample.failing_env pkg = Some q)
      Sample.two_packages queries
    /\ snd (scan_packages_batch Sample.failing_env Sample.default_agent
              (PList Sample.two_packages) [])
       = ([] ++ map (AgentRun (osv_server Sample.default_agent)) queries)%list.
Proof.
  assert (H : Forall is_package_dict Sample.two_packages).
  { repeat constructor; unfold is_package_dict;
      do 4 eexists; repeat split; reflexivity. }
  exact (batch_runs_one_query_per_package Sample.failing_env
           Sample.default_agent Sample.two_packages [] H).
Defined.

(** X9. The batch is not atomic. When a dictionary of the list lacks one
    of the three keys, the packages before it have been scanned (one
    agent run each), the batch raises the [KeyError] of the first missing
    key, and none of the results obtained so far is returned; the packages
    after it are not scanned. *)
Theorem batch_stops_at_missing_key (env : Env) (self : OSVAgent)
    (good rest : list pyval) (d : pydict) (k : string) (w : World) :
  Forall is_package_dict good ->
  first_missing_key d = Some k ->
  exists queries,
    Forall2 (fun pkg q => entry_query env pkg = Some q) good queries
    /\ scan_packages_batch env self (PList (good ++ PDict d :: rest)) w
       = (Raise (KeyError k),
          (w ++ map (AgentRun (osv_server self)) queries)%list).
Proof.
  intros Hgood Hmiss.
  assert (H : forall w, exists queries,
             Forall2 (fun pkg q => entry_query env pkg = Some q) good queries
             /\ scan_each_in_order env self (good ++ PDict d :: rest) w
                = (Raise (KeyError k),
                   (w ++ map (AgentRun (osv_server self)) queries)%list)).
  { clear w. induction Hgood as [|pkg more Hpkg _ IH]; intros w.
    - exists []. split; [constructor|]. cbn [app scan_each_in_order map].
      unfold bind. rewrite (scan_entry_missing_key env self d k w Hmiss).
      now rewrite app_nil_r.
    - destruct (package_dict_query env pkg Hpkg) as [q Hq].
      destruct (scan_entry_package_dict env self pkg q w Hpkg Hq) as [r Hr].
      destruct (IH (w ++ [AgentRun (osv_server self) q])%list)
        as (queries & Hall & Hrest).
      exists (q :: queries). split; [now constructor|].
      cbn [app scan_each_in_order map]. unfold bind. rewrite Hr, Hrest.
      now rewrite <- app_assoc. }
  rewrite scan_packages_batch_sequential. apply H.
Qed.

Lemma batch_stops_at_missing_key_witness :
  exists queries,
    Forall2 (fun pkg q => entry_query Sample.answering_env pkg = Some q)
      Sample.two_packages queries
    /\ scan_packages_batch Sample.answering_env Sample.default_agent
         (PList (Sample.two_packages ++ PDict Cases.versionless :: [])) []
       = (Raise (KeyError "version"),
          ([] ++ map (AgentRun (osv_server Sample.default_agent)) queries)%list).
Proof.
  assert (H : Forall is_package_dict Sample.two_packages).
  { repeat constructor; unfold is_package_dict;
      do 4 eexists; repeat split; reflexivity. }
  exact (batch_stops_at_missing_key Sample.answering_env Sample.default_agent
           Sample.two_packages [] Cases.versionless "version" [] H eq_refl).
Defined.

Lemma scan_package_raises_validation (env : Env) (self : OSVAgent)
    (n e v : pyval) (w w' : World) (x : exn) :
  scan_package env self n e v w = (Raise x, w') -> x = ValidationError.
Proof.
  unfold scan_package, bind, agent_run, lift, ret.
  destruct (agent_reply env w _); [discriminate|].
  unfold VulnerabilityInfo_new. destruct n, e, v; try discriminate;
    now intros [= <- _].
Qed.

Lemma scan_each_no_key_error (env : Env) (self : OSVAgent) (pkgs : list pyval) :
  Forall (fun pkg => exists q, entry_query env pkg = Some q) pkgs ->
  forall w k, fst (scan_each_in_order env self pkgs w) <> Raise (KeyError k).
Proof.
  induction 1 as [|pkg rest [q Hq] _ IH]; intros w k; [discriminate|].
  cbn [scan_each_in_order]. unfold bind at 1. unfold scan_entry, bind, lift.
  unfold entry_query in Hq.
  destruct (py_getitem pkg "package_name") as [n| |]; try discriminate.
  destruct (py_getitem pkg "ecosystem") as [e| |]; try discriminate.
  destruct (py_getitem pkg "version") as [v| |]; try discriminate.
  destruct (scan_package env self n e v w) as [[r|x|c] w1] eqn:Hscan.
  - specialize (IH w1 k).
    destruct (scan_each_in_order env self rest w1) as [[rs|x|c] w2];
      try discriminate. exact IH.
  - apply scan_package_raises_validation in Hscan as ->. discriminate.
  - discriminate.
Qed.

(** X10. The validation of a packages file and the lookups of the batch
    agree on dictionaries: when [parse_packages_from_file] returns a list
    of dictionaries, each of them yields its query, and
    [scan_packages_batch] on that list never raises a [KeyError]. *)
Theorem validated_dicts_have_all_lookups (env : Env) (path : string)
    (w w' : World) (pkgs : list pyval) :
  parse_packages_from_file env path w = (Ret (PList pkgs), w') ->
  Forall (fun pkg => exists d, pkg = PDict d) pkgs ->
  Forall (fun pkg => exists q, entry_query env pkg = Some q) pkgs
  /\ forall self w2 k,
       fst (scan_packages_batch env self (PList pkgs) w2) <> Raise (KeyError k).
Proof.
  intros Hparse Hdicts.
  assert (Hq : Forall (fun pkg => exists q, entry_query env pkg = Some q) pkgs).
  { pose proof (parse_packages_from_file_run env path w) as Hrun.
    unfold file_accepted in Hrun.
    destruct (json_load env path) as [packages|msg];
      [|destruct Hrun as [e He]; rewrite He in Hparse; discriminate].
    destruct (py_iter packages) as [elems| |] eqn:Hiter;
      try (destruct Hrun as [x Hx]; rewrite Hx in Hparse; discriminate).
    destruct (forallb has_required_keys elems) eqn:Hall;
      [|destruct Hrun as [x Hx]; rewrite Hx in Hparse; discriminate].
    destruct Hrun as (packages' & [= <-] & Hret).
    rewrite Hret in Hparse. injection Hparse as -> _.
    injection Hiter as <-.
    rewrite forallb_forall in Hall. apply Forall_forall.
    intros pkg Hin. rewrite Forall_forall in Hdicts.
    destruct (Hdicts pkg Hin) as [d ->]. specialize (Hall _ Hin).
    unfold has_required_keys, required_keys in Hall.
    cbn [forallb py_in] in Hall. unfold dict_has in Hall.
    unfold entry_query, py_getitem.
    destruct (dict_get "package_name" d); [|discriminate].
    destruct (dict_get "ecosystem" d); [|discriminate].
    destruct (dict_get "version" d); [|discriminate]. eauto. }
  split; [exact Hq|]. intros self w2 k.
  rewrite scan_packages_batch_sequential. now apply scan_each_no_key_error.
Qed.

Lemma validated_dicts_have_all_lookups_witness :
  Forall (fun pkg => exists q, entry_query Cases.dict_file_env pkg = Some q)
    Sample.two_packages.
Proof.
  assert (Hd : Forall (fun pkg => exists d, pkg = PDict d) Sample.two_packages)
    by (repeat constructor; eexists; reflexivity).
  exact (proj1 (validated_dicts_have_all_lookups Cases.dict_file_env
                  "packages.json" [] [JsonLoad "packages.json"]
                  Sample.two_packages eq_refl Hd)).
Defined.

(** ** The inline text and back *)

Module PyStrMore.
Import PyStr.

Lemma count_append (c : ascii) (a b : string) :
  count c (a ++ b) = count c a + count c b.
Proof. induction a as [|x a IH]; simpl; [reflexivity | rewrite IH; lia]. Qed.

Lemma split_free (sep : ascii) (a : string) :
  count sep a = 0 -> split sep a = [a].
Proof.
  induction a as [|x a IH]; simpl; [reflexivity|].
  destruct (Ascii.eqb x sep); [discriminate|]. intros H.
  now rewrite (IH H).
Qed.

Lemma split_append_sep (sep : ascii) (a b : string) :
  count sep a = 0 -> split sep (a ++ String sep b) = a :: split sep b.
Proof.
  induction a as [|x a IH]; simpl.
  - now rewrite Ascii.eqb_refl.
  - destruct (Ascii.eqb x sep); [discriminate|]. intros H.
    now rewrite (IH H).
Qed.

Lemma lstrip_with_fixed (p : ascii -> bool) (s t : string) :
  lstrip_with p s = s -> lstrip_with p t = t ->
  lstrip_with p (s ++ t) = s ++ t.
Proof.
  destruct s as [|a s]; [easy|]. simpl. destruct (p a) eqn:Ha; [|reflexivity].
  intros H _. exfalso.
  destruct (PyStrFacts.lstrip_with_decompose p s) as (pre & Hs & _).
  rewrite H in Hs. apply (f_equal String.length) in Hs.
  rewrite PyStrFacts.length_append in Hs. simpl in Hs. lia.
Qed.

Lemma rstrip_with_fixed (p : ascii -> bool) (s t : string) :
  rstrip_with p t = t -> t <> "" -> rstrip_with p (s ++ t) = s ++ t.
Proof.
  intros Ht Hne. rewrite PyStrFacts.rstrip_with_append; now rewrite Ht.
Qed.

End PyStrMore.

Lemma entry_text_parts (n e v : string) :
  plain_triple (n, e, v) -> entry_parts (entry_text (n, e, v)) = [n; e; v].
Proof.
  intros ((_ & Hn) & (_ & He) & (_ & Hv) & Hl & Hr).
  unfold entry_parts, entry_text, PyStr.strip.
  rewrite PyStrMore.lstrip_with_fixed by (exact Hl || reflexivity).
  assert (Hstrip : PyStr.rstrip_with PyStr.isspace (n ++ ":" ++ e ++ ":" ++ v)
                   = n ++ ":" ++ e ++ ":" ++ v).
  { destruct v as [|a v'].
    - replace (n ++ ":" ++ e ++ ":" ++ "") with ((n ++ ":" ++ e) ++ ":")
        by now rewrite !PyStrFacts.append_assoc.
      now apply PyStrMore.rstrip_with_fixed.
    - replace (n ++ ":" ++ e ++ ":" ++ String a v')
        with ((n ++ ":" ++ e ++ ":") ++ String a v')
        by now rewrite !PyStrFacts.append_assoc.
      apply PyStrMore.rstrip_with_fixed; [exact Hr | discriminate]. }
  rewrite Hstrip.
  change (n ++ ":" ++ e ++ ":" ++ v)
    with (n ++ String ":" (e ++ String ":" v)).
  rewrite (PyStrMore.split_append_sep ":" n _ Hn),
          (PyStrMore.split_append_sep ":" e _ He),
          (PyStrMore.split_free ":" v Hv).
  reflexivity.
Qed.

Lemma entry_text_no_comma (t : string * string * string) :
  plain_triple t -> PyStr.count "," (entry_text t) = 0.
Proof.
  destruct t as [[n e] v]. intros ((Hn & _) & (He & _) & (Hv & _) & _).
  unfold entry_text. rewrite !PyStrMore.count_append, Hn, He, Hv. reflexivity.
Qed.

Lemma split_packages_text (t : string * string * string)
    (l : list (string * string * string)) :
  Forall plain_triple (t :: l) ->
  PyStr.split "," (packages_text (t :: l)) = map entry_text (t :: l).
Proof.
  revert t. induction l as [|t' l IH]; intros t Hall.
  - inversion Hall as [|? ? Ht _]; subst. unfold packages_text. cbn [map String.concat].
    now rewrite PyStrMore.split_free by now apply entry_text_no_comma.
  - inversion Hall as [|? ? Ht Hrest]; subst.
    unfold packages_text in *. cbn [map]. cbn [map] in IH.
    change (String.concat "," (entry_text t :: entry_text t' :: map entry_text l))
      with (entry_text t ++ String "," (String.concat "," (entry_text t' :: map entry_text l))).
    rewrite PyStrMore.split_append_sep by now apply entry_text_no_comma.
    now rewrite (IH t' Hrest).
Qed.

(** X11. Round trip of the inline format: for a non-empty list of triples
    whose fields hold no [,] and no [:], the name not starting and the
    version not ending with a blank, [parse_packages_from_args] on the text
    [name:ecosystem:version,...] returns exactly the dictionaries of the
    triples, in order, and prints nothing. Blanks inside an entry (around
    its colons) are kept: only the ends of an entry are stripped. *)
Theorem inline_text_round_trip (t : string * string * string)
    (l : list (string * string * string)) (w : World) :
  Forall plain_triple (t :: l) ->
  parse_packages_from_args (packages_text (t :: l)) w
  = (Ret (PList (map entry_dict (t :: l))), w).
Proof.
  intros Hall.
  pose proof (parse_packages_from_args_run (packages_text (t :: l)) w) as Hrun.
  rewrite (split_packages_text t l Hall) in Hrun.
  assert (Hok : forallb entry_ok (map entry_text (t :: l)) = true).
  { apply forallb_forall. intros x Hx. apply in_map_iff in Hx as (y & <- & Hy).
    rewrite Forall_forall in Hall. destruct y as [[n e] v].
    unfold entry_ok. now rewrite (entry_text_parts n e v (Hall _ Hy)). }
  rewrite Hok in Hrun. rewrite Hrun. do 3 f_equal.
  rewrite map_map. apply map_ext_in. intros [[n e] v] Hin.
  rewrite Forall_forall in Hall.
  now rewrite (entry_text_parts n e v (Hall _ Hin)).
Qed.

Lemma inline_text_round_trip_witness :
  parse_packages_from_args "requests:PyPI:2.25.0,lodash:npm:4.17.20" []
  = (Ret (PList Sample.two_packages), []).
Proof.
  assert (H : Forall plain_triple Cases.two_triples)
    by (repeat constructor).
  exact (inline_text_round_trip ("requests", "PyPI", "2.25.0")
           [("lodash", "npm", "4.17.20")] [] H).
Defined.

(** ** The transport URL *)

(** X12. The URL a transport is built on is stable: with a key in the
    environment, constructing an agent again on that URL picks the same
    transport on the same URL. The suffix rule adds [/sse] or a final [/]
    at most once. *)
Theorem transport_url_is_stable (env : Env) (config : OSVConfig) (w w2 : World) :
  opt_truthy (getenv_ANTHROPIC_API_KEY env) = true ->
  exists server,
    OSVAgent_init env config w
    = (Ret {| config := config; osv_server := server |},
       (w ++ [AgentConstructed server])%list)
    /\ OSVAgent_init env
         {| osv_server_url := transport_url server;
            anthropic_api_key := anthropic_api_key config |} w2
       = (Ret {| config := {| osv_server_url := transport_url server;
                              anthropic_api_key := anthropic_api_key config |};
                 osv_server := server |},
          (w2 ++ [AgentConstructed server])%list).
Proof.
  intros Hkey.
  destruct (init_with_key env config w Hkey) as (server & Hrun & Hs).
  exists server. split; [exact Hrun|].
  destruct (init_with_key env
              {| osv_server_url := transport_url server;
                 anthropic_api_key := anthropic_api_key config |} w2 Hkey)
    as (server2 & Hrun2 & Hs2).
  rewrite Hrun2. cbn [osv_server_url] in Hs2.
  assert (Hsame : server2 = server); [|now rewrite Hsame].
  rewrite Hs2. clear Hrun Hrun2 Hs2 server2.
  set (url := osv_server_url config) in *.
  destruct (PyStr.endswith url "/sse") eqn:Hsse.
  - subst server. cbn [transport_url]. now rewrite Hsse.
  - destruct (PyStr.endswith url "/mcp" || PyStr.endswith url "/mcp/") eqn:Hmcp.
    + assert (Hbase : exists base, PyStr.rstrip_char "/" url = base ++ "/mcp").
      { apply orb_true_iff in Hmcp as [H|H];
          apply PyStrFacts.endswith_iff in H as [base ->];
          exists base; apply rstrip_slash_mcp. }
      destruct Hbase as [base Hbase]. rewrite Hbase in Hs.
      rewrite PyStrFacts.append_assoc in Hs. subst server.
      cbn [transport_url append].
      assert (H5 : PyStr.endswith (base ++ "/mcp/") "/mcp/" = true)
        by (apply PyStrFacts.endswith_iff; now exists base).
      rewrite (mcp_suffix_not_sse _ (or_intror H5)), H5, orb_true_r.
      destruct (rstrip_slash_mcp base) as [_ ->].
      now rewrite PyStrFacts.append_assoc.
    + subst server. cbn [transport_url].
      assert (H4 : PyStr.endswith (url ++ "/sse") "/sse" = true)
        by (apply PyStrFacts.endswith_iff; now exists url).
      now rewrite H4.
Qed.

Lemma transport_url_is_stable_witness :
  exists server,
    OSVAgent_init Sample.failing_env Sample.default_config []
    = (Ret {| config := Sample.default_config; osv_server := server |},
       ([] ++ [AgentConstructed server])%list)
    /\ OSVAgent_init Sample.failing_env
         {| osv_server_url := transport_url server;
            anthropic_api_key := anthropic_api_key Sample.default_config |} []
       = (Ret {| config := {| osv_server_url := transport_url server;
                              anthropic_api_key :=
                                anthropic_api_key Sample.default_config |};
                 osv_server := server |},
          ([] ++ [AgentConstructed server])%list).
Proof.
  exact (transport_url_is_stable Sample.failing_env Sample.default_config [] []
           eq_refl).
Defined.

(** ** The text report *)

Module ReportFacts.
Import Report.

Lemma join_items_strs (l : list string) :
  join_items (map PStr l) = Ret (map text l).
Proof.
  induction l as [|s l IH]; [reflexivity|]. cbn [map join_items].
  now rewrite IH.
Qed.

Lemma severity_line_strs (d : pydict) (label : pytext) (key : string)
    (ids : list string) (lines : list pytext) :
  dict_get key d = Some (PList (map PStr ids)) ->
  severity_line d label key lines = Ret (lines ++ severity_block label ids)%list.
Proof.
  intros Hget. unfold severity_line, py_getitem. rewrite Hget. cbn [rbind].
  destruct ids as [|s ids]; cbn [map py_truthy severity_block].
  - now rewrite app_nil_r.
  - unfold py_join. cbn [py_iter rbind].
    change (PStr s :: map PStr ids) with (map PStr (s :: ids)).
    now rewrite join_items_strs.
Qed.

Lemma recommendation_lines_strs (env : Env) (d : pydict) (recs : list string)
    (lines : list pytext) :
  dict_get "recommendations" d = Some (PList (map PStr recs)) ->
  recommendation_lines env d lines
  = Ret (lines ++ recommendation_block recs)%list.
Proof.
  intros Hget. unfold recommendation_lines, py_getitem. rewrite Hget.
  cbn [rbind]. destruct recs as [|s recs]; cbn [map py_truthy recommendation_block].
  - now rewrite app_nil_r.
  - cbn [py_iter rbind]. do 2 f_equal. cbn [app map]. f_equal.
    now rewrite map_map.
Qed.

(** On the dump of a record the dynamic formatter returns, and its lines
    are the ones read off the fields. *)
Lemma format_single_result_lines_dump (env : Env) (r : VulnerabilityInfo)
    (t : string) :
  format_single_result_lines env (model_dump r) t = Ret (record_lines env r).
Proof.
  unfold format_single_result_lines, record_lines.
  change (py_getitem (PDict (model_dump r)) "package_name")
    with (@Ret pyval (PStr (package_name r))).
  change (py_getitem (PDict (model_dump r)) "ecosystem")
    with (@Ret pyval (PStr (ecosystem r))).
  change (py_getitem (PDict (model_dump r)) "version")
    with (@Ret pyval (PStr (version r))).
  change (py_getitem (PDict (model_dump r)) "vulnerabilities_found")
    with (@Ret pyval (PInt (vulnerabilities_found r))).
  change (py_getitem (PDict (model_dump r)) "summary")
    with (@Ret pyval (PStr (summary r))).
  cbn [rbind py_gt_0]. fold (record_head env r). fold (record_summary r).
  destruct (0 <? vulnerabilities_found r)%Z.
  - rewrite (severity_line_strs _ _ _ (critical_vulnerabilities r)) by reflexivity.
    cbn [rbind].
    rewrite (severity_line_strs _ _ _ (high_vulnerabilities r)) by reflexivity.
    cbn [rbind].
    rewrite (severity_line_strs _ _ _ (medium_vulnerabilities r)) by reflexivity.
    cbn [rbind].
    rewrite (recommendation_lines_strs env _ (recommendations r)) by reflexivity.
    cbn [rbind]. now rewrite <- !app_assoc.
  - reflexivity.
Qed.

Lemma format_single_result_dump (env : Env) (r : VulnerabilityInfo) (t : string) :
  format_single_result env (model_dump r) t
  = Ret (text_join nl (record_lines env r)).
Proof.
  unfold format_single_result. now rewrite format_single_result_lines_dump.
Qed.

Lemma count_vulnerable_dump (rs : list VulnerabilityInfo) :
  count_vulnerable (map model_dump rs)
  = Ret (length (filter (fun r => (0 <? vulnerabilities_found r)%Z) rs)).
Proof.
  induction rs as [|r rs IH]; [reflexivity|]. cbn [map count_vulnerable filter].
  change (py_getitem (PDict (model_dump r)) "vulnerabilities_found")
    with (@Ret pyval (PInt (vulnerabilities_found r))).
  cbn [rbind py_gt_0]. rewrite IH. cbn [rbind].
  now destruct (0 <? vulnerabilities_found r)%Z.
Qed.

(** The loop over dumps returns; when the last index is [total] it adds
    one entry per record and a separator after each but the last. *)
Lemma batch_entries_dump (env : Env) (t : string) (total : nat)
    (rs : list VulnerabilityInfo) :
  forall i lines,
    i + length rs = S total ->
    exists extra,
      batch_entries env (map model_dump rs) t i total lines
      = Ret (lines ++ extra)%list
      /\ length extra = 2 * length rs - 1.
Proof.
  induction rs as [|r rs IH]; intros i lines Hi.
  - exists []. cbn. now rewrite app_nil_r.
  - cbn [map batch_entries]. rewrite format_single_result_dump. cbn [rbind].
    cbn [length] in Hi.
    destruct rs as [|r' rs'].
    + assert (Hlt : Nat.ltb i total = false)
        by (apply Nat.ltb_ge; cbn in Hi; lia).
      rewrite Hlt. cbn [map batch_entries]. eexists [_]. split; reflexivity.
    + assert (Hlt : Nat.ltb i total = true)
        by (apply Nat.ltb_lt; cbn in Hi; lia).
      rewrite Hlt.
      destruct (IH (S i)
                  ((lines ++ [(py_text env (PInt (Z.of_nat i)) ++ text ". "
                               ++ text_join nl (record_lines env r))%list])
                   ++ [text_repeat "-" 30])%list)
        as (extra & Hrun & Hlen); [cbn in *; lia|].
      eexists (_ :: _ :: extra). split.
      * rewrite Hrun. now rewrite <- !app_assoc.
      * cbn [length] in *. lia.
Qed.

Lemma batch_entries_numbered (env : Env) (t : string) (total : nat)
    (rs : list VulnerabilityInfo) :
  forall i lines,
    i + length rs = S total ->
    batch_entries env (map model_dump rs) t i total lines
    = Ret (lines ++ numbered_entries env i rs)%list.
Proof.
  induction rs as [|r rs IH]; intros i lines Hi.
  - cbn. now rewrite app_nil_r.
  - cbn [map batch_entries]. rewrite format_single_result_dump. cbn [rbind].
    cbn [length] in Hi.
    destruct rs as [|r' rs'].
    + assert (Hlt : Nat.ltb i total = false)
        by (apply Nat.ltb_ge; cbn in Hi; lia).
      rewrite Hlt. reflexivity.
    + assert (Hlt : Nat.ltb i total = true)
        by (apply Nat.ltb_lt; cbn in Hi; lia).
      rewrite Hlt, IH by (cbn in *; lia).
      cbn [numbered_entries]. unfold numbered_entry.
      now rewrite <- !app_assoc.
Qed.

Lemma length_numbered_entries (env : Env) (rs : list VulnerabilityInfo) :
  forall i, length (numbered_entries env i rs) = 2 * length rs - 1.
Proof.
  induction rs as [|r rs IH]; intros i; [reflexivity|].
  destruct rs as [|r' rs']; [reflexivity|].
  cbn [numbered_entries length] in *. rewrite (IH (S i)). lia.
Qed.

End ReportFacts.

(** What the scan branches of [main] can bind to [output]. *)
Lemma main_scan_shapes (env : Env) (agent : OSVAgent) (args : Args)
    (w w' : World) (out : output) :
  main_scan env agent args w = (Ret out, w') ->
  (exists id details,
      out = OutDict [("vulnerability_id", id); ("details", PStr details)])
  \/ (exists r, out = OutDict (model_dump r))
  \/ (exists rs, out = OutList (map model_dump rs)).
Proof.
  unfold main_scan.
  destruct (opt_truthy (arg_vulnerability_id args)).
  { unfold bind, ret.
    destruct (get_vulnerability_details env agent _ w) as [[d|?|?] w1];
      try discriminate.
    intros [= <- _]. left. eauto. }
  destruct (opt_truthy (arg_package args)).
  { unfold bind, ret.
    destruct (scan_package env agent _ _ _ w) as [[r|?|?] w1]; try discriminate.
    intros [= <- _]. right. left. eauto. }
  destruct (opt_truthy (arg_packages args)).
  { unfold bind, ret.
    destruct (parse_packages_from_args _ w) as [[pk|?|?] w1]; try discriminate.
    destruct (scan_packages_batch env agent pk w1) as [[rs|?|?] w2];
      try discriminate.
    intros [= <- _]. right. right. eauto. }
  destruct (opt_truthy (arg_packages_file args)).
  { unfold bind, ret.
    destruct (parse_packages_from_file env _ w) as [[pk|?|?] w1];
      try discriminate.
    destruct (scan_packages_batch env agent pk w1) as [[rs|?|?] w2];
      try discriminate.
    intros [= <- _]. right. right. eauto. }
  discriminate.
Qed.

Lemma format_batch_results_lines_dump (env : Env) (rs : list VulnerabilityInfo)
    (t : string) :
  exists extra,
    Report.format_batch_results_lines env (map model_dump rs) t
    = Ret ([ (Report.glyph_found ++ text " Vulnerability Scan Results")%list;
             text_repeat "=" 50;
             (Report.glyph_batch_summary ++ text " Summary: "
              ++ Report.py_text env
                   (PInt (Z.of_nat
                            (length (filter
                                       (fun r => (0 <? vulnerabilities_found r)%Z)
                                       rs))))
              ++ text "/"
              ++ Report.py_text env (PInt (Z.of_nat (length rs)))
              ++ text " packages have vulnerabilities")%list;
             [] ] ++ extra)%list
    /\ length extra = 2 * length rs - 1.
Proof.
  unfold Report.format_batch_results_lines.
  rewrite ReportFacts.count_vulnerable_dump. cbn [Report.rbind].
  rewrite length_map.
  destruct (ReportFacts.batch_entries_dump env t (length rs) rs 1
              ([ (Report.glyph_found ++ text " Vulnerability Scan Results")%list;
                 text_repeat "=" 50 ]
               ++ [ (Report.glyph_batch_summary ++ text " Summary: "
                     ++ Report.py_text env
                          (PInt (Z.of_nat
                                   (length (filter
                                              (fun r => (0 <? vulnerabilities_found r)%Z)
                                              rs))))
                     ++ text "/"
                     ++ Report.py_text env (PInt (Z.of_nat (length rs)))
                     ++ text " packages have vulnerabilities")%list;
                    [] ])%list eq_refl)
    as (extra & Hrun & Hlen).
  exists extra. split; [exact Hrun | exact Hlen].
Qed.

(** X13. The text branch of [main] cannot raise: on every output the
    scan branches bind (the details dictionary, the dump of one record, a
    list of dumps) the report is built, at every threshold. The lookups,
    the comparison of the count with 0 and the joins of [format_single_result]
    and [format_batch_results] all succeed there. *)
Theorem text_report_total_on_scan_outputs (env : Env) (agent : OSVAgent)
    (args : Args) (w w' : World) (out : output) (threshold : string) :
  main_scan env agent args w = (Ret out, w') ->
  exists report, Report.render_text env out threshold = Ret report.
Proof.
  intros Hscan.
  destruct (main_scan_shapes env agent args w w' out Hscan)
    as [(id & details & ->)|[(r & ->)|(rs & ->)]].
  - eexists. reflexivity.
  - unfold Report.render_text.
    change (dict_has "vulnerability_id" (model_dump r)) with false. cbv iota.
    rewrite ReportFacts.format_single_result_dump. eauto.
  - unfold Report.render_text, Report.format_batch_results.
    destruct (format_batch_results_lines_dump env rs threshold)
      as (extra & -> & _).
    eexists. reflexivity.
Qed.

Lemma text_report_total_on_scan_outputs_witness :
  exists report,
    Report.render_text Sample.answering_env
      (OutDict (model_dump Sample.requests_report)) "medium" = Ret report.
Proof.
  exact (text_report_total_on_scan_outputs Sample.answering_env
           Sample.default_agent Sample.single_args []
           [AgentRun (MCPServerSSE "http://localhost:8080/sse")
              "Scan requests version 2.25.0 from PyPI ecosystem for vulnerabilities"]
           (OutDict (model_dump Sample.requests_report)) "medium" eq_refl).
Defined.

(** X14. The report and the exit-code policy read a record differently.
    The report shows the severity lines only when [vulnerabilities_found]
    is positive; the policy looks at the lists and never at the count. So
    for a record that counts nothing but lists a high-severity finding,
    the report is the two head lines and the summary, while the policy is
    above every threshold up to [high]. *)
Theorem zero_count_hides_findings (env : Env) (r : VulnerabilityInfo)
    (threshold t : string) (j : nat) :
  (vulnerabilities_found r <= 0)%Z ->
  high_vulnerabilities r <> [] ->
  list_index t severity_levels = Some j -> j <= 2 ->
  Report.format_single_result_lines env (model_dump r) threshold
  = Ret (Report.record_head env r ++ [Report.record_summary r])%list
  /\ has_vulnerabilities_above_threshold (OutDict (model_dump r)) t = Ret true.
Proof.
  intros Hcount Hhigh Ht Hj. split.
  - rewrite ReportFacts.format_single_result_lines_dump.
    unfold Report.record_lines.
    assert (H : (0 <? vulnerabilities_found r)%Z = false)
      by (apply Z.ltb_ge; exact Hcount).
    now rewrite H.
  - rewrite (has_vulnerabilities_run _ t j Ht). f_equal.
    cbn [results_of existsb]. rewrite orb_false_r.
    apply check_single_true_iff.
    exists 2, (PList (map PStr (high_vulnerabilities r))).
    repeat split; [exact Hj | simpl; lia |].
    destruct (high_vulnerabilities r); [contradiction | reflexivity].
Qed.

Lemma zero_count_hides_findings_witness :
  has_vulnerabilities_above_threshold
    (OutDict
       (model_dump
          {| package_name := "requests"; ecosystem := "PyPI";
             version := "2.25.0"; vulnerabilities_found := 0;
             critical_vulnerabilities := [];
             high_vulnerabilities := ["GHSA-9hjg-9r4m-mvj7"];
             medium_vulnerabilities := []; recommendations := [];
             summary := "clean" |})) "medium" = Ret true.
Proof.
  assert (H0 : (0 <= 0)%Z) by lia.
  assert (Hne : ["GHSA-9hjg-9r4m-mvj7"] <> @nil string) by discriminate.
  assert (Hj : 1 <= 2) by lia.
  exact (proj2 (zero_count_hides_findings Sample.answering_env
                  {| package_name := "requests"; ecosystem := "PyPI";
                     version := "2.25.0"; vulnerabilities_found := 0;
                     critical_vulnerabilities := [];
                     high_vulnerabilities := ["GHSA-9hjg-9r4m-mvj7"];
                     medium_vulnerabilities := []; recommendations := [];
                     summary := "clean" |} "medium" "medium" 1 H0 Hne eq_refl Hj)).
Defined.

(** X15. For [n] records [format_batch_results] joins, with newlines, a
    list of [4 + (2n - 1)] items, four for the empty batch: the four items
    of the head (the title, fifty [=], the count of the records whose
    [vulnerabilities_found] is positive against [n], an empty item), then
    for each record its report behind its number, with a rule of thirty
    [-] between two of them and none after the last. The items are counted
    and not the lines of the text: an entry holds the whole report of its
    record and spans several lines. *)
Theorem batch_report_items (env : Env) (rs : list VulnerabilityInfo)
    (threshold : string) :
  Report.format_batch_results_lines env (map model_dump rs) threshold
  = Ret (Report.batch_head env rs ++ Report.numbered_entries env 1 rs)%list
  /\ Report.format_batch_results env (map model_dump rs) threshold
     = Ret (text_join Report.nl
              (Report.batch_head env rs ++ Report.numbered_entries env 1 rs)%list)
  /\ length (Report.batch_head env rs ++ Report.numbered_entries env 1 rs)%list
     = 4 + (2 * length rs - 1).
Proof.
  assert (Hrun : Report.format_batch_results_lines env (map model_dump rs)
                   threshold
                 = Ret (Report.batch_head env rs
                        ++ Report.numbered_entries env 1 rs)%list).
  { unfold Report.format_batch_results_lines.
    rewrite ReportFacts.count_vulnerable_dump. cbn [Report.rbind].
    rewrite length_map.
    now rewrite (ReportFacts.batch_entries_numbered env threshold (length rs)
                   rs 1 _ eq_refl). }
  split; [exact Hrun|]. split.
  - unfold Report.format_batch_results. now rewrite Hrun.
  - rewrite length_app, ReportFacts.length_numbered_entries. reflexivity.
Qed.

(** Two records give six items: the head, the first entry, the rule and
    the second entry. *)
Example two_records_six_items :
  exists first second,
    Report.format_batch_results_lines Sample.answering_env
      (map model_dump [Sample.requests_report; Sample.requests_report]) "medium"
    = Ret (Report.batch_head Sample.answering_env
             [Sample.requests_report; Sample.requests_report]
           ++ [first; text_repeat "-" 30; second])%list.
Proof. eexists. eexists. reflexivity. Qed.

Lemma batch_entries_any_threshold (env : Env) (results : list pydict)
    (t1 t2 : string) :
  forall i total lines,
    Report.batch_entries env results t1 i total lines
    = Report.batch_entries env results t2 i total lines.
Proof.
  induction results as [|d rest IH]; intros i total lines; [reflexivity|].
  cbn [Report.batch_entries].
  change (Report.format_single_result env d t1)
    with (Report.format_single_result env d t2).
  destruct (Report.format_single_result env d t2); cbn [Report.rbind];
    [|reflexivity..].
  apply IH.
Qed.

(** X16. [--severity-threshold] does not filter the text report: the
    report is the same at every threshold, and a record with a positive
    count and a medium-severity finding shows its Medium line even at the
    threshold [critical]. *)
Theorem report_ignores_threshold (env : Env) (out : output)
    (r : VulnerabilityInfo) (t1 t2 : string) :
  Report.render_text env out t1 = Report.render_text env out t2
  /\ ((0 < vulnerabilities_found r)%Z ->
      medium_vulnerabilities r <> [] ->
      exists lines,
        Report.format_single_result_lines env (model_dump r) "critical"
        = Ret lines
        /\ In (Report.glyph_medium ++ text " Medium: "
               ++ text_join (text ", ") (map text (medium_vulnerabilities r)))%list
             lines).
Proof.
  split.
  - destruct out as [d|results]; [reflexivity|].
    unfold Report.render_text, Report.format_batch_results,
      Report.format_batch_results_lines.
    destruct (Report.count_vulnerable results) as [n|e|c]; [|reflexivity..].
    cbn [Report.rbind]. now rewrite (batch_entries_any_threshold env results t1 t2).
  - intros Hpos Hmed. eexists. split;
      [apply ReportFacts.format_single_result_lines_dump|].
    unfold Report.record_lines.
    assert (H : (0 <? vulnerabilities_found r)%Z = true)
      by (apply Z.ltb_lt; exact Hpos).
    rewrite H. apply in_or_app. right. apply in_or_app. left.
    apply in_or_app. right. apply in_or_app. right. apply in_or_app. left.
    destruct (medium_vulnerabilities r); [contradiction|]. now left.
Qed.

(** ** Two more edges *)

Lemma split_trailing_sep (sep : ascii) (s : string) :
  PyStr.split sep (s ++ String sep "") = (PyStr.split sep s ++ [""])%list.
Proof.
  induction s as [|a s IH]; simpl.
  - now rewrite Ascii.eqb_refl.
  - rewrite IH. destruct (Ascii.eqb a sep); [reflexivity|].
    pose proof (PyStrFacts.split_not_nil sep s) as Hnil.
    destruct (PyStr.split sep s) as [|h t]; [contradiction | reflexivity].
Qed.

(** X17. A trailing comma spoils an inline package list: whatever comes
    before it, the text ends in an empty entry, which has one part instead
    of three, so [parse_packages_from_args] prints its error and exits 1. *)
Theorem trailing_comma_rejected (packages_str : string) (w : World) :
  exists e,
    parse_packages_from_args (packages_str ++ ",") w
    = (SysExit 1%Z, (w ++ [StderrExn "Error parsing packages: " e])%list).
Proof.
  pose proof (parse_packages_from_args_run (packages_str ++ ",") w) as Hrun.
  rewrite split_trailing_sep, forallb_app in Hrun.
  cbn [forallb] in Hrun.
  change (entry_ok "") with false in Hrun.
  rewrite andb_false_r in Hrun.
  destruct Hrun as (bad & _ & ->). eauto.
Qed.

(** X18. A destination that cannot be written costs the run its verdict:
    after a successful scan, when writing [--output-file] raises, [main]
    prints that error and exits 1 whatever the output holds; nothing is
    delivered and the threshold test is not reached. *)
Theorem write_failure_preempts_policy (env : Env) (args : Args)
    (w w2 : World) (server : transport) (agent : OSVAgent) (out : output)
    (msg : string) :
  py_sum (scan_modes args) = 1 ->
  OSVAgent_init env
    {| osv_server_url := arg_osv_server args;
       anthropic_api_key := arg_anthropic_api_key args |} w
  = (Ret agent, (w ++ [AgentConstructed server])%list) ->
  main_scan env agent args (w ++ [AgentConstructed server])%list
  = (Ret out, w2) ->
  opt_truthy (arg_output_file args) = true ->
  file_write env (unwrap (arg_output_file args)) = Some msg ->
  main env args w
  = (SysExit 1%Z, (w2 ++ [StderrExn "Error: " (ExternalError msg)])%list).
Proof.
  intros Hcount Hinit Hscan Hfile Hwrite.
  rewrite (main_after_init env args w server agent Hcount Hinit), Hscan.
  unfold main_write. now rewrite Hfile, Hwrite.
Qed.

Lemma write_failure_preempts_policy_witness :
  main Cases.unwritable_env Cases.output_file_args []
  = (SysExit 1%Z,
     [ AgentConstructed (MCPServerSSE "http://localhost:8080/sse");
       AgentRun (MCPServerSSE "http://localhost:8080/sse")
         "Scan requests version 2.25.0 from PyPI ecosystem for vulnerabilities";
       StderrExn "Error: " (ExternalError "Permission denied") ]).
Proof.
  exact (write_failure_preempts_policy Cases.unwritable_env
           Cases.output_file_args []
           [ AgentConstructed (MCPServerSSE "http://localhost:8080/sse");
             AgentRun (MCPServerSSE "http://localhost:8080/sse")
               "Scan requests version 2.25.0 from PyPI ecosystem for vulnerabilities" ]
           (MCPServerSSE "http://localhost:8080/sse")
           {| config := {| osv_server_url := "http://localhost:8080";
                           anthropic_api_key := None |};
              osv_server := MCPServerSSE "http://localhost:8080/sse" |}
           (OutDict (model_dump Sample.requests_report))
           "Permission denied" eq_refl eq_refl eq_refl eq_refl eq_refl).
Defined.
